(** * typing-test: timing, scoring and the high-score table

    A shallow embedding of [typing_test.py] (class [TypingTest]) and
    [score_manager.py] (class [ScoreManager]).

    - Python [int] is [Z]; Python [float] is IEEE binary64, taken from the
      standard library's [SpecFloat] at precision 53 and [emax] 1024.
    - A Python [str] is the list of its code points.
    - Methods that touch widgets, the clock, the dialog or the score table
      run in a state-and-exception monad over one [World] record; what is
      assigned before an exception is raised stays assigned. *)

From Stdlib Require Import ZArith List Lia Bool String Ascii.
From Stdlib Require Import SpecFloat.
From Stdlib Require Import Sorting.Sorted Sorting.Permutation.
Import ListNotations.

Local Open Scope Z_scope.

(* ================================================================== *)
(** * Exceptions *)
(* ================================================================== *)

(** The exception classes the two modules can meet; all of them derive
    from [Exception]. *)
Inductive exn :=
| TypeError
| ValueError
| ZeroDivisionError
| OverflowError
| UnboundLocalError
| FileNotFoundError
| JSONDecodeError
| OtherException (class_name : string).

(** The value of an expression, or the exception it raises. *)
Inductive res (A : Type) :=
| Val (a : A)
| Exc (e : exn).
Arguments Val {A} a.
Arguments Exc {A} e.

Definition res_bind {A B} (r : res A) (k : A -> res B) : res B :=
  match r with
  | Val a => k a
  | Exc e => Exc e
  end.

(* ================================================================== *)
(** * Python numbers *)
(* ================================================================== *)

Module PyNum.

(** Binary64. *)
Definition prec : Z := 53.
Definition emax : Z := 1024.

Definition float := spec_float.

(** A number as the interpreter holds it: [80] is an [int], [80.0] a
    [float]. *)
Inductive num :=
| PyInt (z : Z)
| PyFloat (f : float).

(** An integer seen as an unrounded binary fraction [n * 2^0]. *)
Definition exact_int (n : Z) : float :=
  match n with
  | Z0 => S754_zero false
  | Zpos p => S754_finite false p 0
  | Zneg p => S754_finite true p 0
  end.

Definition is_zero (f : float) : bool :=
  match f with
  | S754_zero _ => true
  | _ => false
  end.

Definition is_nan (f : float) : bool :=
  match f with
  | S754_nan => true
  | _ => false
  end.

Definition is_infinite (f : float) : bool :=
  match f with
  | S754_infinity _ => true
  | _ => false
  end.

(** [float(n)]: correctly rounded; an int beyond the largest float is an
    [OverflowError]. *)
Definition float_of_int (n : Z) : res float :=
  let f := binary_normalize prec emax n 0 false in
  if is_infinite f then Exc OverflowError else Val f.

(** The operand of a mixed operation, converted as the interpreter does. *)
Definition as_float (x : num) : res float :=
  match x with
  | PyInt z => float_of_int z
  | PyFloat f => Val f
  end.

Definition fsub (x y : float) : float := SFsub prec emax x y.
Definition fmul (x y : float) : float := SFmul prec emax x y.
Definition fdiv (x y : float) : float := SFdiv prec emax x y.

(** [a / b] on two ints (CPython's [long_true_divide]): the exact quotient
    rounded once, to nearest-even. *)
Definition int_truediv (a b : Z) : res float :=
  if b =? 0 then Exc ZeroDivisionError
  else
    let q := SFdiv prec emax (exact_int a) (exact_int b) in
    if is_infinite q then Exc OverflowError else Val q.

(** [x / y] on two floats. *)
Definition float_truediv (x y : float) : res float :=
  if is_zero y then Exc ZeroDivisionError else Val (fdiv x y).

(** [x - y], [x * y], [x / y]. *)
Definition sub (x y : num) : res num :=
  match x, y with
  | PyInt a, PyInt b => Val (PyInt (a - b))
  | _, _ =>
      res_bind (as_float x) (fun fx =>
      res_bind (as_float y) (fun fy =>
      Val (PyFloat (fsub fx fy))))
  end.

Definition mul (x y : num) : res num :=
  match x, y with
  | PyInt a, PyInt b => Val (PyInt (a * b))
  | _, _ =>
      res_bind (as_float x) (fun fx =>
      res_bind (as_float y) (fun fy =>
      Val (PyFloat (fmul fx fy))))
  end.

Definition truediv (x y : num) : res num :=
  match x, y with
  | PyInt a, PyInt b =>
      res_bind (int_truediv a b) (fun q => Val (PyFloat q))
  | _, _ =>
      res_bind (as_float x) (fun fx =>
      res_bind (as_float y) (fun fy =>
      res_bind (float_truediv fx fy) (fun q => Val (PyFloat q))))
  end.

(** ** Comparison by exact value

    Python orders ints and floats by their mathematical value, also
    across the two types; a NaN is unordered with everything. *)

(** The extended value of a number that is not a NaN: a binary fraction
    [m * 2^e] or an infinity. *)
Inductive xval :=
| NegInf
| Dyadic (m e : Z)
| PosInf.

Definition float_value (f : float) : option xval :=
  match f with
  | S754_nan => None
  | S754_zero _ => Some (Dyadic 0 0)
  | S754_infinity s => Some (if s then NegInf else PosInf)
  | S754_finite s m e => Some (Dyadic (cond_Zopp s (Zpos m)) e)
  end.

Definition value (x : num) : option xval :=
  match x with
  | PyInt z => Some (Dyadic z 0)
  | PyFloat f => float_value f
  end.

Definition dyadic_compare (m1 e1 m2 e2 : Z) : comparison :=
  let e := Z.min e1 e2 in
  Z.compare (m1 * 2 ^ (e1 - e)) (m2 * 2 ^ (e2 - e)).

Definition xval_compare (a b : xval) : comparison :=
  match a, b with
  | NegInf, NegInf => Eq
  | NegInf, _ => Lt
  | _, NegInf => Gt
  | PosInf, PosInf => Eq
  | PosInf, _ => Gt
  | _, PosInf => Lt
  | Dyadic m1 e1, Dyadic m2 e2 => dyadic_compare m1 e1 m2 e2
  end.

Definition compare (x y : num) : option comparison :=
  match value x, value y with
  | Some a, Some b => Some (xval_compare a b)
  | _, _ => None
  end.

(** [x < y], [x > y], [x >= y], [x == y]. *)
Definition ltb (x y : num) : bool :=
  match compare x y with
  | Some Lt => true
  | _ => false
  end.

Definition gtb (x y : num) : bool := ltb y x.

Definition geb (x y : num) : bool :=
  match compare x y with
  | Some (Gt | Eq) => true
  | _ => false
  end.

Definition eqb (x y : num) : bool :=
  match compare x y with
  | Some Eq => true
  | _ => false
  end.

(** [max(a, b)]: the first argument stays unless the second is greater. *)
Definition max2 (a b : num) : num := if gtb b a then b else a.

(** A number that [<] can order: anything but a NaN. *)
Definition is_number (x : num) : bool :=
  match x with
  | PyFloat S754_nan => false
  | _ => true
  end.

Definition is_finite (f : float) : bool :=
  match f with
  | S754_zero _ | S754_finite _ _ _ => true
  | _ => false
  end.

Definition xval_ge (a b : xval) : Prop := xval_compare a b <> Lt.

(** The float that [binary_round_aux] builds from its last mantissa and
    exponent. *)
Definition round_result (s : bool) (m e : Z) : float :=
  match m with
  | Z0 => S754_zero s
  | Zpos p => if e <=? emax - prec then S754_finite s p e else S754_infinity s
  | Zneg _ => S754_nan
  end.

(** The floats [60.0], [100.0] and [1.0]. *)
Definition f60 : float := S754_finite false 8444249301319680 (-47).
Definition f100 : float := S754_finite false 7036874417766400 (-46).
Definition f1 : float := S754_finite false 4503599627370496 (-52).

End PyNum.

(* ================================================================== *)
(** * Python strings *)
(* ================================================================== *)

Module PyStr.

(** A string is the sequence of its code points. *)
Definition char := N.
Definition str := list char.

(** A literal of the source. *)
Definition lit (s : string) : str :=
  List.map N_of_ascii (list_ascii_of_string s).

Definition char_eqb (a b : char) : bool := N.eqb a b.

(** [str.isspace] on one code point: what [split()] and [strip()] treat
    as white space. *)
Definition isspace (c : char) : bool :=
  (((9 <=? c) && (c <=? 13)) || ((28 <=? c) && (c <=? 32))
   || (c =? 133) || (c =? 160) || (c =? 5760)
   || ((8192 <=? c) && (c <=? 8202))
   || (c =? 8232) || (c =? 8233) || (c =? 8239) || (c =? 8287)
   || (c =? 12288))%N.

(** [bool(s)]. *)
Definition truthy (s : str) : bool :=
  match s with
  | [] => false
  | _ :: _ => true
  end.

Definition len (s : str) : Z := Z.of_nat (List.length s).

Fixpoint lstrip (s : str) : str :=
  match s with
  | [] => []
  | c :: t => if isspace c then lstrip t else s
  end.

Definition rstrip (s : str) : str := rev (lstrip (rev s)).

(** [s.strip()]. *)
Definition strip (s : str) : str := rstrip (lstrip s).

(** [s.split()]: the maximal runs of characters that are not white
    space.  [word] holds the run being read, last character first. *)
Fixpoint split_from (word : str) (s : str) : list str :=
  match s with
  | [] =>
      match word with
      | [] => []
      | _ :: _ => [rev word]
      end
  | c :: t =>
      if isspace c then
        match word with
        | [] => split_from [] t
        | _ :: _ => rev word :: split_from [] t
        end
      else split_from (c :: word) t
  end.

Definition split (s : str) : list str := split_from [] s.

End PyStr.

Import PyNum PyStr.

(* ================================================================== *)
(** * The state the two classes work on *)
(* ================================================================== *)

(** One record of the high-score table: the dict that [add_score]
    builds. *)
Record ScoreRecord := {
  name : str;
  score : num;
  accuracy : num;
  date : str
}.

(** What lies at [filepath].  [Holds] is a file that [json.load] reads as
    a list of records with the four fields of [add_score], strings and
    numbers; a file that holds some other JSON document is not among the
    states of the model, and neither is a table with such values.  A file
    that is empty or stops in the middle of a document is [Unparseable]. *)
Inductive stored :=
| NoFile                              (* [open] raises [FileNotFoundError] *)
| Unparseable                         (* [json.load] raises [JSONDecodeError] *)
| Unreadable (e : exn)                (* [open] or the read raises [e] *)
| Holds (records : list ScoreRecord). (* a table written by [save_scores] *)

(** [ScoreManager]. *)
Record ScoreManager := {
  high_scores : list ScoreRecord;
  file : stored
}.

Inductive tk_state := NORMAL | DISABLED.

(** The text of a label: a literal, or one of the three f-strings. *)
Inductive label_text :=
| Literal (s : str)
| SpeedText (wpm : num)            (* f'Speed: {wpm:.2f} WPM' *)
| AccuracyText (a : num)           (* f'Accuracy: {accuracy:.2f} %' *)
| TimeText (remaining : Z).        (* f"Time: {self.remaining_time}" *)

(** The two callbacks handed to [after]. *)
Inductive callback :=
| UpdateTimer
| EndTestProgrammatically.

(** A pending [after] call. *)
Record timer := {
  timer_id : nat;
  delay_ms : Z;
  action : callback
}.

(** The widgets of the window, as far as [TypingTest] uses them. *)
Record Widgets := {
  display_content : str;      (* the Text widget, without the newline of END *)
  display_state : tk_state;
  input_content : str;        (* the Entry widget *)
  input_state : tk_state;
  input_focus : bool;
  return_bound : bool;        (* '<Return>' is bound to [end_test] *)
  speed_label : label_text;
  accuracy_label : label_text;
  timer_label : label_text;
  pending : list timer;
  next_timer_id : nat;
  score_windows : list (list ScoreRecord)   (* the tables shown so far *)
}.

(** The attributes of a [TypingTest] that are not widgets. *)
Record TypingTest := {
  start_time : option float;
  end_time : option float;
  timer_update_id : option nat;
  test_ended : bool;
  remaining_time : Z
}.

(** A line written by [print]. *)
Inductive printed :=
| Line (s : str)
| LineWith (s : str) (e : exn).    (* an f-string ending in [{e}] *)

(** What the program reads from outside and writes to the terminal. *)
Record Env := {
  now : float;                       (* what [time.time()] returns while
                                        the event is handled *)
  today : str;                       (* [datetime.now().strftime("%Y-%m-%d")] *)
  answers : list (option str);       (* the user's answers to [askstring],
                                        in order; [None] is Cancel *)
  write_error : option exn;          (* what [open(filepath, 'w')] raises:
                                        the file is then left as it is *)
  dump_error : option exn;           (* what [json.dump], or closing the
                                        file, raises once [open] has
                                        emptied the file *)
  stdout : list printed
}.

Record World := {
  self : TypingTest;
  ui : Widgets;
  manager : ScoreManager;
  env : Env
}.

(** ** Field updates *)

Definition with_self (f : TypingTest -> TypingTest) (w : World) : World :=
  {| self := f (self w); ui := ui w; manager := manager w; env := env w |}.
Definition with_ui (f : Widgets -> Widgets) (w : World) : World :=
  {| self := self w; ui := f (ui w); manager := manager w; env := env w |}.
Definition with_manager (f : ScoreManager -> ScoreManager) (w : World) : World :=
  {| self := self w; ui := ui w; manager := f (manager w); env := env w |}.
Definition with_env (f : Env -> Env) (w : World) : World :=
  {| self := self w; ui := ui w; manager := manager w; env := f (env w) |}.

Definition set_start_time (v : option float) (t : TypingTest) : TypingTest :=
  {| start_time := v; end_time := end_time t;
     timer_update_id := timer_update_id t; test_ended := test_ended t;
     remaining_time := remaining_time t |}.
Definition set_end_time (v : option float) (t : TypingTest) : TypingTest :=
  {| start_time := start_time t; end_time := v;
     timer_update_id := timer_update_id t; test_ended := test_ended t;
     remaining_time := remaining_time t |}.
Definition set_timer_update_id (v : option nat) (t : TypingTest) : TypingTest :=
  {| start_time := start_time t; end_time := end_time t;
     timer_update_id := v; test_ended := test_ended t;
     remaining_time := remaining_time t |}.
Definition set_test_ended (v : bool) (t : TypingTest) : TypingTest :=
  {| start_time := start_time t; end_time := end_time t;
     timer_update_id := timer_update_id t; test_ended := v;
     remaining_time := remaining_time t |}.
Definition set_remaining_time (v : Z) (t : TypingTest) : TypingTest :=
  {| start_time := start_time t; end_time := end_time t;
     timer_update_id := timer_update_id t; test_ended := test_ended t;
     remaining_time := v |}.

Definition set_display (c : str) (st : tk_state) (u : Widgets) : Widgets :=
  {| display_content := c; display_state := st;
     input_content := input_content u; input_state := input_state u;
     input_focus := input_focus u; return_bound := return_bound u;
     speed_label := speed_label u; accuracy_label := accuracy_label u;
     timer_label := timer_label u; pending := pending u;
     next_timer_id := next_timer_id u; score_windows := score_windows u |}.
Definition set_input (c : str) (st : tk_state) (focus bound : bool)
    (u : Widgets) : Widgets :=
  {| display_content := display_content u; display_state := display_state u;
     input_content := c; input_state := st;
     input_focus := focus; return_bound := bound;
     speed_label := speed_label u; accuracy_label := accuracy_label u;
     timer_label := timer_label u; pending := pending u;
     next_timer_id := next_timer_id u; score_windows := score_windows u |}.
Definition set_labels (sp ac tm : label_text) (u : Widgets) : Widgets :=
  {| display_content := display_content u; display_state := display_state u;
     input_content := input_content u; input_state := input_state u;
     input_focus := input_focus u; return_bound := return_bound u;
     speed_label := sp; accuracy_label := ac;
     timer_label := tm; pending := pending u;
     next_timer_id := next_timer_id u; score_windows := score_windows u |}.
Definition set_timers (p : list timer) (next : nat) (u : Widgets) : Widgets :=
  {| display_content := display_content u; display_state := display_state u;
     input_content := input_content u; input_state := input_state u;
     input_focus := input_focus u; return_bound := return_bound u;
     speed_label := speed_label u; accuracy_label := accuracy_label u;
     timer_label := timer_label u; pending := p;
     next_timer_id := next; score_windows := score_windows u |}.
Definition set_score_windows (l : list (list ScoreRecord)) (u : Widgets) : Widgets :=
  {| display_content := display_content u; display_state := display_state u;
     input_content := input_content u; input_state := input_state u;
     input_focus := input_focus u; return_bound := return_bound u;
     speed_label := speed_label u; accuracy_label := accuracy_label u;
     timer_label := timer_label u; pending := pending u;
     next_timer_id := next_timer_id u; score_windows := l |}.

Definition set_high_scores (l : list ScoreRecord) (m : ScoreManager) : ScoreManager :=
  {| high_scores := l; file := file m |}.
Definition set_file (f : stored) (m : ScoreManager) : ScoreManager :=
  {| high_scores := high_scores m; file := f |}.

Definition set_answers (a : list (option str)) (e : Env) : Env :=
  {| now := now e; today := today e; answers := a;
     write_error := write_error e; dump_error := dump_error e;
     stdout := stdout e |}.
Definition set_stdout (o : list printed) (e : Env) : Env :=
  {| now := now e; today := today e; answers := answers e;
     write_error := write_error e; dump_error := dump_error e;
     stdout := o |}.

(* ================================================================== *)
(** * Running a method *)
(* ================================================================== *)

(** How a call ends: it returns, it raises, or it is still waiting in the
    modal name dialog because the user has given no further answer. *)
Inductive outcome (A : Type) :=
| Done (a : A)
| Raised (e : exn)
| Blocked.
Arguments Done {A} a.
Arguments Raised {A} e.
Arguments Blocked {A}.

Definition M (A : Type) := World -> outcome A * World.

Definition ret {A} (a : A) : M A := fun w => (Done a, w).
Definition raise {A} (e : exn) : M A := fun w => (Raised e, w).
Definition bind {A B} (c : M A) (k : A -> M B) : M B :=
  fun w =>
    match c w with
    | (Done a, w') => k a w'
    | (Raised e, w') => (Raised e, w')
    | (Blocked, w') => (Blocked, w')
    end.

Notation "x <- c ;; k" := (bind c (fun x => k))
  (at level 61, c at next level, right associativity).
Notation "c ;; k" := (bind c (fun _ => k))
  (at level 61, right associativity).

Definition get {A} (f : World -> A) : M A := fun w => (Done (f w), w).
Definition modify (f : World -> World) : M unit := fun w => (Done tt, f w).

(** The value of an expression, inside a method. *)
Definition eval {A} (r : res A) : M A :=
  match r with
  | Val a => ret a
  | Exc e => raise e
  end.

(** [try: body except Exception as e: handler(e)]. *)
Definition try_except {A} (body : M A) (handler : exn -> M A) : M A :=
  fun w =>
    match body w with
    | (Raised e, w') => handler e w'
    | other => other
    end.

Definition print (l : printed) : M unit :=
  modify (with_env (fun e => set_stdout (stdout e ++ [l]) e)).

(** A call [self.m(a1, ..., an)]: the arguments are evaluated, and the
    interpreter raises [TypeError] before the body runs unless their
    number is the number of parameters that [m] declares after [self]. *)
Definition call1 {A B} (m : A -> M B) (args : list A) : M B :=
  match args with
  | [a] => m a
  | _ => raise TypeError
  end.

Definition call2 {A B} (m : A -> A -> M B) (args : list A) : M B :=
  match args with
  | [a; b] => m a b
  | _ => raise TypeError
  end.

(* ================================================================== *)
(** * score_manager.py *)
(* ================================================================== *)

(** ** [list.sort(key=lambda x: x['score'], reverse=True)]

    The sort is stable and compares keys with [<] only; with
    [reverse=True] records of equal score keep their order.  The model is
    the stable insertion sort: a record moves past the records of greater
    score and stops before the first one that is not greater.  It is what
    [list.sort] returns whenever [<] orders the keys, that is, when no
    score is a NaN.  With a NaN among the keys [list.sort] returns some
    rearrangement that depends on how the runs of the list fall, and that
    [sort_desc] does not follow: the theorems that give the order of the
    table assume that it holds no NaN. *)
Fixpoint insert_desc (r : ScoreRecord) (l : list ScoreRecord) : list ScoreRecord :=
  match l with
  | [] => [r]
  | h :: t =>
      if ltb (score r) (score h) then h :: insert_desc r t
      else r :: h :: t
  end.

Definition sort_desc (l : list ScoreRecord) : list ScoreRecord :=
  fold_right insert_desc [] l.

(** The body of the [try] in [load_scores]: [open] and [json.load]. *)
Definition read_file : M (list ScoreRecord) :=
  f <- get (fun w => file (manager w)) ;;
  match f with
  | NoFile => raise FileNotFoundError
  | Unparseable => raise JSONDecodeError
  | Unreadable e => raise e
  | Holds records => ret records
  end.

Definition load_scores : M (list ScoreRecord) :=
  try_except read_file (fun e =>
    match e with
    | FileNotFoundError => ret []
    | JSONDecodeError =>
        print (Line (lit "Corrupt high score file! Starting fresh.")) ;;
        ret []
    | _ =>
        print (LineWith
                 (lit "Failed to load high scores due to an unexpected error: ") e) ;;
        ret []
    end).

(** [ScoreManager.__init__]. *)
Definition init_manager : M unit :=
  l <- load_scores ;;
  modify (with_manager (set_high_scores l)).

(** The body of the [try] in [save_scores]: [open(..., 'w')] and
    [json.dump].  [open] empties the file before [json.dump] writes, so
    an exception after [open] leaves a file that is empty or stops in the
    middle of the document. *)
Definition write_file : M unit :=
  err <- get (fun w => write_error (env w)) ;;
  match err with
  | Some e => raise e
  | None =>
      modify (with_manager (set_file Unparseable)) ;;
      err <- get (fun w => dump_error (env w)) ;;
      match err with
      | Some e => raise e
      | None =>
          modify (with_manager (fun m => set_file (Holds (high_scores m)) m))
      end
  end.

Definition save_scores : M unit :=
  try_except write_file (fun e =>
    print (LineWith
             (lit "Failed to save high scores due to an unexpected error: ") e)).

Definition add_score (name : str) (score accuracy : num) : M unit :=
  d <- get (fun w => today (env w)) ;;
  let new_score :=
    {| name := name; score := score; accuracy := accuracy; date := d |} in
  modify (with_manager (fun m => set_high_scores (high_scores m ++ [new_score]) m)) ;;
  modify (with_manager (fun m => set_high_scores (sort_desc (high_scores m)) m)) ;;
  modify (with_manager (fun m => set_high_scores (firstn 10 (high_scores m)) m)) ;;
  save_scores.

Definition get_top_scores : M (list ScoreRecord) :=
  get (fun w => high_scores (manager w)).

(* ================================================================== *)
(** * typing_test.py *)
(* ================================================================== *)

(** ** The widget calls *)

(** [display_text_widget.get('1.0', tk.END)]: the content and the newline
    that a Text widget always ends with. *)
Definition display_get : M str :=
  get (fun w => display_content (ui w) ++ [10%N]).

Definition display_config (st : tk_state) : M unit :=
  modify (with_ui (fun u => set_display (display_content u) st u)).

(** [delete] and [insert] change a Text or Entry widget only while its
    state is [NORMAL]. *)
Definition display_delete_all : M unit :=
  modify (with_ui (fun u =>
    match display_state u with
    | NORMAL => set_display [] NORMAL u
    | DISABLED => u
    end)).

Definition display_insert_end (text : str) : M unit :=
  modify (with_ui (fun u =>
    match display_state u with
    | NORMAL => set_display (display_content u ++ text) NORMAL u
    | DISABLED => u
    end)).

Definition input_get : M str := get (fun w => input_content (ui w)).

Definition input_delete_all : M unit :=
  modify (with_ui (fun u =>
    match input_state u with
    | NORMAL => set_input [] NORMAL (input_focus u) (return_bound u) u
    | DISABLED => u
    end)).

Definition input_config (st : tk_state) : M unit :=
  modify (with_ui (fun u =>
    set_input (input_content u) st (input_focus u) (return_bound u) u)).

Definition input_focus_set : M unit :=
  modify (with_ui (fun u =>
    set_input (input_content u) (input_state u) true (return_bound u) u)).

Definition input_bind_return : M unit :=
  modify (with_ui (fun u =>
    set_input (input_content u) (input_state u) (input_focus u) true u)).

Definition speed_label_config (t : label_text) : M unit :=
  modify (with_ui (fun u => set_labels t (accuracy_label u) (timer_label u) u)).
Definition accuracy_label_config (t : label_text) : M unit :=
  modify (with_ui (fun u => set_labels (speed_label u) t (timer_label u) u)).
Definition timer_label_config (t : label_text) : M unit :=
  modify (with_ui (fun u => set_labels (speed_label u) (accuracy_label u) t u)).

(** [widget.after(ms, callback)]: returns the identifier of the call. *)
Definition after (ms : Z) (cb : callback) : M nat :=
  fun w =>
    let id := next_timer_id (ui w) in
    (Done id,
     with_ui (set_timers
                (pending (ui w) ++ [{| timer_id := id; delay_ms := ms; action := cb |}])
                (S id)) w).

(** [widget.after_cancel(id)]: tkinter refuses an [id] that is [None]. *)
Definition after_cancel (id : option nat) : M unit :=
  match id with
  | None => raise ValueError
  | Some i =>
      modify (with_ui (fun u =>
        set_timers (filter (fun t => negb (Nat.eqb (timer_id t) i)) (pending u))
                   (next_timer_id u) u))
  end.

(** [time.time()]. *)
Definition time : M float := get (fun w => now (env w)).

(** ** [calculate_speed] and [calculate_accuracy] *)

(** [self.end_time - self.start_time]: an attribute that is still [None]
    makes the subtraction a [TypeError]. *)
Definition elapsed (end_time start_time : option float) : res num :=
  match end_time, start_time with
  | Some e, Some s => sub (PyFloat e) (PyFloat s)
  | _, _ => Exc TypeError
  end.

(** [len(typed_text.split())]. *)
Definition word_count (typed_text : str) : Z :=
  Z.of_nat (List.length (split typed_text)).

Definition calculate_speed (typed_text : str) : M num :=
  e <- get (fun w => end_time (self w)) ;;
  s <- get (fun w => start_time (self w)) ;;
  diff <- eval (elapsed e s) ;;
  let elapsed_time := max2 diff (PyInt 1) in
  elapsed_minutes <- eval (truediv elapsed_time (PyFloat f60)) ;;
  wpm <- eval (truediv (PyInt (word_count typed_text)) elapsed_minutes) ;;
  speed_label_config (SpeedText wpm) ;;
  ret wpm.

(** [sum(...)] over a generator of booleans: [True] counts 1. *)
Definition sum_bools (l : list bool) : Z :=
  fold_left (fun acc (b : bool) => acc + (if b then 1 else 0)) l 0.

(** [sum(typed_char == original_char for typed_char, original_char in
    zip(typed_text, original_text))]. *)
Definition matches (typed_text original_text : str) : Z :=
  sum_bools (List.map (fun p => char_eqb (fst p) (snd p))
                      (combine typed_text original_text)).

Definition calculate_accuracy (typed_text original_text : str) : M num :=
  if negb (truthy original_text) then ret (PyInt 0)
  else
    ratio <- eval (truediv (PyInt (matches typed_text original_text))
                           (PyInt (len original_text))) ;;
    accuracy <- eval (mul ratio (PyInt 100)) ;;
    accuracy_label_config (AccuracyText accuracy) ;;
    ret accuracy.

(** ** [show_high_scores] *)

(** The window lists [top_scores]; the OK button is then placed on
    [row + 1], and [row] is bound by the loop over the scores only. *)
Definition show_high_scores : M unit :=
  top_scores <- get_top_scores ;;
  modify (with_ui (fun u => set_score_windows (score_windows u ++ [top_scores]) u)) ;;
  match top_scores with
  | [] => raise UnboundLocalError
  | _ :: _ => ret tt
  end.

(** ** [end] *)

(** The name dialog of [end]:
    [name = None; while not name: name = askstring(...); if name is None: return].
    [Done None] is the [return] after Cancel. *)
Fixpoint name_loop (script : list (option str))
  : outcome (option str) * list (option str) :=
  match script with
  | [] => (Blocked, [])
  | None :: rest => (Done None, rest)
  | Some n :: rest =>
      if truthy n then (Done (Some n), rest) else name_loop rest
  end.

Definition ask_name : M (option str) :=
  fun w =>
    let (o, rest) := name_loop (answers (env w)) in
    (o, with_env (set_answers rest) w).

(** [end], from the name dialog on (lines 96 to 116). *)
Definition end_from_dialog (calculated_speed calculated_accuracy : num) : M unit :=
  answer <- ask_name ;;
  match answer with
  | None => ret tt
  | Some name =>
      add_score name calculated_speed calculated_accuracy ;;
      input_delete_all ;;
      input_config DISABLED ;;
      modify (with_self (set_remaining_time 60)) ;;
      timer_label_config (Literal (lit "Time: 60")) ;;
      id <- get (fun w => timer_update_id (self w)) ;;
      after_cancel id ;;
      show_high_scores
  end.

(** [end]; [calculate_speed] declares one parameter after [self] and is
    called with two arguments. *)
Definition end_ : M unit :=
  ended <- get (fun w => test_ended (self w)) ;;
  if ended then ret tt
  else
    modify (with_self (set_test_ended true)) ;;
    t <- time ;;
    modify (with_self (set_end_time (Some t))) ;;
    typed_text <- input_get ;;
    shown <- display_get ;;
    let original_text := strip shown in
    calculated_speed <- call1 calculate_speed [typed_text; original_text] ;;
    calculated_accuracy <- call2 calculate_accuracy [typed_text; original_text] ;;
    end_from_dialog calculated_speed calculated_accuracy.

Definition end_test : M unit := end_.
Definition end_test_programmatically : M unit := end_.

(** ** [update_timer] and [start_test] *)

Definition update_timer : M unit :=
  r <- get (fun w => remaining_time (self w)) ;;
  if r <=? 0 then
    timer_label_config (Literal (lit "Time's up!")) ;;
    end_test_programmatically
  else
    timer_label_config (TimeText r) ;;
    modify (with_self (fun t => set_remaining_time (remaining_time t - 1) t)) ;;
    id <- after 1000 UpdateTimer ;;
    modify (with_self (set_timer_update_id (Some id))).

(** [start_test(text)]: the parameter is overwritten by the content of the
    display before it is read. *)
Definition start_test (text : str) : M unit :=
  shown <- display_get ;;
  let text := strip shown in
  if negb (truthy text) then
    print (Line (lit "No text loaded for the test."))
  else
    modify (with_self (set_test_ended false)) ;;
    display_config NORMAL ;;
    display_delete_all ;;
    display_insert_end text ;;
    display_config DISABLED ;;
    input_delete_all ;;
    input_config NORMAL ;;
    input_focus_set ;;
    input_bind_return ;;
    t <- time ;;
    modify (with_self (set_start_time (Some t))) ;;
    _ <- after 60000 EndTestProgrammatically ;;
    modify (with_self (set_remaining_time 60)) ;;
    update_timer.

(** [TypingTest.__init__] and the widgets as [ui.py] creates them. *)
Definition new_test : TypingTest :=
  {| start_time := None; end_time := None; timer_update_id := None;
     test_ended := false; remaining_time := 60 |}.

Definition new_widgets : Widgets :=
  {| display_content := []; display_state := DISABLED;
     input_content := []; input_state := DISABLED;
     input_focus := false; return_bound := false;
     speed_label := Literal (lit "Speed: - WPM");
     accuracy_label := Literal (lit "Accuracy: - %");
     timer_label := Literal (lit "Time: 60");
     pending := []; next_timer_id := 0; score_windows := [] |}.

(** ** The phase of the session

    [Idle] until the first start, [Running] from a start to the first
    [end], [Ended] from then to the next start. *)
Inductive phase := Idle | Running | Ended.

Definition phase_of (w : World) : phase :=
  if test_ended (self w) then Ended
  else match start_time (self w) with
       | None => Idle
       | Some _ => Running
       end.

(* ================================================================== *)
(** * What the specification says, in the terms of the model *)
(* ================================================================== *)

(** ** Accuracy *)

(** The specification's count: the number of positions [i] below both
    lengths at which the two strings agree. *)
Definition positional_matches (typed original : str) : Z :=
  Z.of_nat (List.length
    (filter (fun i => char_eqb (nth i typed 0%N) (nth i original 0%N))
            (seq 0 (Nat.min (List.length typed) (List.length original))))).

(** The specification's accuracy: 0 for an empty original, else the
    positional count over the length of the original, times 100. *)
Definition positional_accuracy (typed original : str) : res num :=
  match original with
  | [] => Val (PyInt 0)
  | _ :: _ =>
      res_bind (truediv (PyInt (positional_matches typed original))
                        (PyInt (len original)))
               (fun ratio => mul ratio (PyInt 100))
  end.

(** [m / len(original) * 100] once the two operations are known not to
    raise. *)
Definition accuracy_value (m : Z) (original : str) : num :=
  PyFloat (fmul (SFdiv prec emax (exact_int m) (exact_int (len original))) f100).

(** The window after [calculate_accuracy] and [calculate_speed] have set
    their label. *)
Definition show_accuracy (a : num) (w : World) : World :=
  with_ui (fun u => set_labels (speed_label u) (AccuracyText a) (timer_label u) u) w.

Definition show_speed (wpm : num) (w : World) : World :=
  with_ui (fun u => set_labels (SpeedText wpm) (accuracy_label u) (timer_label u) u) w.

(** ** Speed *)

(** The specification's word count: the words of a text are its maximal
    runs of characters that are not white space, so a text has as many
    words as it has characters that are not white space and stand first
    in the text or right behind a white-space character.  [after_space]
    tells whether [s] starts the text or follows a white-space
    character. *)
Fixpoint word_starts (after_space : bool) (s : str) : nat :=
  match s with
  | [] => 0
  | c :: t =>
      ((if after_space && negb (isspace c) then 1 else 0)
       + word_starts (isspace c) t)%nat
  end.

Definition whitespace_words (s : str) : Z := Z.of_nat (word_starts true s).

(** ** The high-score table *)

Definition score_ge (a b : ScoreRecord) : Prop :=
  geb (score a) (score b) = true.

(** Sorted descending by score: every record has a score [>=] that of
    every record after it. *)
Definition sorted_desc (l : list ScoreRecord) : Prop :=
  StronglySorted score_ge l.

Definition has_number (r : ScoreRecord) : Prop :=
  is_number (score r) = true.

(** The record that [add_score] builds, and the table it leaves. *)
Definition new_record (n : str) (sc acc : num) (w : World) : ScoreRecord :=
  {| name := n; score := sc; accuracy := acc; date := today (env w) |}.

Definition top_ten (l : list ScoreRecord) (r : ScoreRecord) : list ScoreRecord :=
  firstn 10 (sort_desc (l ++ [r])).

(** A step that leaves the [ScoreManager] alone. *)
Definition keeps_manager {A} (c : M A) : Prop :=
  forall w, manager (snd (c w)) = manager w.

(** ** The session *)

(** The state in which a first [end] leaves the session. *)
Definition ended_at (t : float) (w : World) : World :=
  with_self (set_end_time (Some t)) (with_self (set_test_ended true) w).

Definition no_text_line : printed :=
  Line (lit "No text loaded for the test.").

(** ** Sample states *)

Definition Bob : str := lit "Bob".

Definition sample_env (script : list (option str)) : Env :=
  {| now := f60; today := lit "2024-05-01"; answers := script;
     write_error := None; dump_error := None; stdout := [] |}.

(** The application as [main.py] builds it, before any text is shown. *)
Definition idle_world : World :=
  {| self := new_test; ui := new_widgets;
     manager := {| high_scores := []; file := NoFile |};
     env := sample_env [] |}.

(** A text is shown, the user is about to enter the name "Al". *)
Definition loaded_world : World :=
  {| self := new_test;
     ui := set_display (lit "hello there") DISABLED new_widgets;
     manager := {| high_scores := []; file := NoFile |};
     env := sample_env [Some (lit "Al")] |}.

(** Start was pressed and "hello world" typed. *)
Definition running_world : World :=
  with_ui (fun u => set_input (lit "hello world") (input_state u)
                              (input_focus u) (return_bound u) u)
          (snd (start_test [] loaded_world)).

(** A session that started at 1.0 and ended at 60.0. *)
Definition timed_world : World :=
  with_self (fun t => set_end_time (Some f60) (set_start_time (Some f1) t))
            loaded_world.



(* ================================================================== *)
(** * Further statements about the two classes *)
(* ================================================================== *)

(** ** The table *)

(** The records of [l] that rank at or above the score [sc], and those
    that rank below it, each in the order of [l]. *)
Definition at_or_above (sc : num) (l : list ScoreRecord) : list ScoreRecord :=
  filter (fun h => geb (score h) sc) l.

Definition below (sc : num) (l : list ScoreRecord) : list ScoreRecord :=
  filter (fun h => ltb (score h) sc) l.

(** The line that [save_scores] prints when the file cannot be written. *)
Definition save_failed_line (e : exn) : printed :=
  LineWith (lit "Failed to save high scores due to an unexpected error: ") e.

(** The file, or the disk under it, as the write finds it. *)
Definition set_write_errors (at_open at_dump : option exn) (e : Env) : Env :=
  {| now := now e; today := today e; answers := answers e;
     write_error := at_open; dump_error := at_dump; stdout := stdout e |}.

(** A file that may not be opened for writing. *)
Definition read_only_world : World :=
  with_env (set_write_errors (Some (OtherException "PermissionError")) None)
           idle_world.

(** Ten records, 100 down to 10 words per minute. *)
Definition ten_records : list ScoreRecord :=
  List.map (fun k => {| name := lit "p"; score := PyInt (10 * Z.of_nat k);
                        accuracy := PyInt 90; date := lit "2024-05-01" |})
           (rev (seq 1 10)).

Definition full_world : World :=
  with_manager (set_high_scores ten_records) idle_world.

(** The table of ten also on disk, and a disk that fills up while
    [json.dump] writes. *)
Definition full_disk_world : World :=
  with_env (set_write_errors None (Some (OtherException "OSError")))
           (with_manager (set_file (Holds ten_records)) full_world).

(** Three records that are not in order. *)
Definition three_records : list ScoreRecord :=
  List.map (fun z => {| name := lit "p"; score := PyInt z;
                        accuracy := PyInt 90; date := lit "2024-05-01" |})
           [40; 90; 70].

Definition unsorted_world : World :=
  with_manager (set_high_scores three_records) idle_world.

(** Two slow records, 3 and 1 words per minute, in the session that
    started at 1.0 and ended at 60.0. *)
Definition slow_records : list ScoreRecord :=
  List.map (fun z => {| name := lit "p"; score := PyInt z;
                        accuracy := PyInt 90; date := lit "2024-05-01" |})
           [3; 1].

Definition slow_world : World :=
  with_manager (set_high_scores slow_records) timed_world.

(** ** The countdown *)

(** The two kinds of timer that [start_test] and [update_timer] arm. *)
Definition deadline_timer (id : nat) : timer :=
  {| timer_id := id; delay_ms := 60000; action := EndTestProgrammatically |}.

Definition tick_timer (id : nat) : timer :=
  {| timer_id := id; delay_ms := 1000; action := UpdateTimer |}.

(** [n] firings of the tick callback in a row. *)
Fixpoint ticks (n : nat) : M unit :=
  match n with
  | O => ret tt
  | S k => update_timer ;; ticks k
  end.

(** The session after one tick with time left. *)
Definition ticked (w : World) : World :=
  let id := next_timer_id (ui w) in
  with_self (set_timer_update_id (Some id))
    (with_ui (set_timers (pending (ui w) ++ [tick_timer id]) (S id))
       (with_self (set_remaining_time (remaining_time (self w) - 1))
          (with_ui (fun u => set_labels (speed_label u) (accuracy_label u)
                                        (TimeText (remaining_time (self w))) u) w))).

(** The window once the time is up. *)
Definition time_up (w : World) : World :=
  with_ui (fun u => set_labels (speed_label u) (accuracy_label u)
                               (Literal (lit "Time's up!")) u) w.

(** The same state when the clock reads [t]. *)
Definition at_time (t : float) (w : World) : World :=
  with_env (fun e => {| now := t; today := today e; answers := answers e;
                        write_error := write_error e; dump_error := dump_error e;
                        stdout := stdout e |}) w.

(** The invariant of the counter. *)
Definition counter_in_range (w : World) : Prop :=
  0 <= remaining_time (self w) <= 60.

(** ** The end of a test, from the name dialog on *)

(** The session once the score is recorded: the input cleared (when it was
    enabled) and disabled, the counter and its label back at 60. *)
Definition input_closed (w : World) : World :=
  with_ui (fun u => set_labels (speed_label u) (accuracy_label u)
                               (Literal (lit "Time: 60")) u)
    (with_self (set_remaining_time 60)
       (with_ui (fun u => set_input (input_content u) DISABLED
                                    (input_focus u) (return_bound u) u)
          (with_ui (fun u => match input_state u with
                             | NORMAL => set_input [] NORMAL (input_focus u)
                                                   (return_bound u) u
                             | DISABLED => u
                             end) w))).

(** The pending timers without the one that [after_cancel] cancels. *)
Definition without_timer (i : nat) (l : list timer) : list timer :=
  filter (fun t => negb (Nat.eqb (timer_id t) i)) l.

(** The session at the end of [end]: the tick cancelled, the table shown. *)
Definition table_shown (i : nat) (w : World) : World :=
  with_ui (fun u => set_score_windows
                      (score_windows u ++ [high_scores (manager w)]) u)
    (with_ui (fun u => set_timers (without_timer i (pending u))
                                  (next_timer_id u) u) w).

(** A user who enters the name "Al" when no tick was ever armed. *)
Definition untimed_world : World :=
  with_env (set_answers [Some (lit "Al")]) idle_world.

(** ** Signs of floats *)

(** A float that is zero, positive or plus infinity. *)
Definition nonneg_float (f : float) : bool :=
  match f with
  | S754_zero _ | S754_finite false _ _ | S754_infinity false => true
  | _ => false
  end.

(** A float that is positive or plus infinity. *)
Definition positive_float (f : float) : bool :=
  match f with
  | S754_finite false _ _ | S754_infinity false => true
  | _ => false
  end.

(** Nothing but white space. *)
Definition blank (s : str) : bool := forallb isspace s.

(* ================================================================== *)
(** * Facts about binary64 rounding *)
(* ================================================================== *)

(** ** The number of binary digits *)

Lemma digits2_pos_size (p : positive) : digits2_pos p = Pos.size p.
Proof. induction p; simpl; congruence. Qed.

Lemma Zdigits2_log2 (m : Z) : 0 < m -> Zdigits2 m = Z.log2 m + 1.
Proof.
  destruct m as [|p|p]; try lia. intros _. simpl.
  rewrite digits2_pos_size.
  destruct p; simpl; lia.
Qed.

(** [Zdigits2 m <= k] exactly when [m < 2^k]. *)
Lemma Zdigits2_le_iff (m k : Z) :
  0 <= m -> 0 <= k -> (Zdigits2 m <= k <-> m < 2 ^ k).
Proof.
  intros Hm Hk.
  destruct (Z.eq_dec m 0) as [->|Hne].
  - simpl. split; intros _; [apply Z.pow_pos_nonneg; lia | lia].
  - rewrite Zdigits2_log2 by lia.
    split; intros H.
    + apply Z.log2_lt_pow2; lia.
    + apply Z.log2_lt_pow2 in H; lia.
Qed.

Lemma Zdigits2_nonneg (m : Z) : 0 <= Zdigits2 m.
Proof. destruct m; simpl; lia. Qed.

Lemma Zdigits2_pos (m : Z) : 0 < m -> 0 < Zdigits2 m.
Proof. destruct m; simpl; lia. Qed.

Lemma Zdigits2_shift (m n : Z) :
  0 <= m -> 0 <= n -> Zdigits2 (m / 2 ^ n) = Z.max 0 (Zdigits2 m - n).
Proof.
  intros Hm Hn.
  assert (Hp : 0 < 2 ^ n) by (apply Z.pow_pos_nonneg; lia).
  assert (Hq : 0 <= m / 2 ^ n) by (apply Z.div_pos; lia).
  assert (Hiff : forall k, 0 <= k -> (Zdigits2 (m / 2 ^ n) <= k <-> Zdigits2 m <= k + n)).
  { intros k Hk. rewrite !Zdigits2_le_iff by lia.
    rewrite Z.pow_add_r by lia.
    split; intros H.
    - destruct (Z_lt_le_dec m (2 ^ k * 2 ^ n)) as [Hlt|Hge]; [exact Hlt|].
      assert (2 ^ k <= m / 2 ^ n) by (apply Z.div_le_lower_bound; lia). lia.
    - apply Z.div_lt_upper_bound; lia. }
  pose proof (Zdigits2_nonneg (m / 2 ^ n)) as H1.
  pose proof (Zdigits2_nonneg m) as H2.
  pose proof (Hiff (Zdigits2 (m / 2 ^ n)) H1) as [Ha _].
  pose proof (Hiff (Z.max 0 (Zdigits2 m - n)) ltac:(lia)) as [_ Hb].
  lia.
Qed.

Lemma Zdigits2_mono (a b : Z) : 0 <= a -> a <= b -> Zdigits2 a <= Zdigits2 b.
Proof.
  intros Ha Hab.
  apply Zdigits2_le_iff; try lia. apply Zdigits2_nonneg.
  pose proof (proj1 (Zdigits2_le_iff b (Zdigits2 b) ltac:(lia) (Zdigits2_nonneg b)) (Z.le_refl _)).
  lia.
Qed.

Lemma Zdigits2_succ (a : Z) : 0 <= a -> Zdigits2 (a + 1) <= Zdigits2 a + 1.
Proof.
  intros Ha.
  pose proof (Zdigits2_nonneg a) as Hn.
  apply Zdigits2_le_iff; try lia.
  pose proof (proj1 (Zdigits2_le_iff a (Zdigits2 a) Ha Hn) (Z.le_refl _)).
  rewrite Z.pow_add_r by lia. lia.
Qed.

(** ** Shifting a mantissa right *)

Lemma shr_1_m (mrs : shr_record) :
  0 <= shr_m mrs -> shr_m (shr_1 mrs) = shr_m mrs / 2.
Proof.
  destruct mrs as [m r s]. simpl. intros Hm.
  destruct m as [|p|p]; try lia.
  - reflexivity.
  - destruct p as [p|p|]; simpl shr_m.
    + rewrite Pos2Z.inj_xI. apply Z.div_unique with (r := 1); lia.
    + rewrite Pos2Z.inj_xO. apply Z.div_unique with (r := 0); lia.
    + reflexivity.
Qed.

Lemma iter_shr_1_m (p : positive) :
  forall mrs, 0 <= shr_m mrs ->
    shr_m (iter_pos shr_1 p mrs) = shr_m mrs / 2 ^ Zpos p.
Proof.
  induction p as [p IH|p IH|]; intros mrs Hm; simpl iter_pos.
  - assert (H1 : 0 <= shr_m (shr_1 mrs)).
    { rewrite shr_1_m by auto. apply Z.div_pos; lia. }
    assert (H2 : 0 <= shr_m (iter_pos shr_1 p (shr_1 mrs))).
    { rewrite IH by auto. apply Z.div_pos; [lia | apply Z.pow_pos_nonneg; lia]. }
    rewrite (IH _ H2), (IH _ H1), shr_1_m by auto.
    rewrite !Z.div_div by (try apply Z.pow_pos_nonneg; lia).
    f_equal.
    replace (Zpos p~1) with (1 + Zpos p + Zpos p) by lia.
    rewrite !Z.pow_add_r by lia. lia.
  - assert (H1 : 0 <= shr_m (iter_pos shr_1 p mrs)).
    { rewrite IH by auto. apply Z.div_pos; [lia | apply Z.pow_pos_nonneg; lia]. }
    rewrite (IH _ H1), (IH _ Hm).
    rewrite !Z.div_div by (try apply Z.pow_pos_nonneg; lia).
    f_equal.
    replace (Zpos p~0) with (Zpos p + Zpos p) by lia.
    rewrite !Z.pow_add_r by lia. lia.
  - rewrite shr_1_m by auto. reflexivity.
Qed.

Lemma shr_record_of_loc_m (m : Z) (l : location) :
  shr_m (shr_record_of_loc m l) = m.
Proof. destruct l as [|[]]; reflexivity. Qed.

(** What [shr_fexp] leaves of the mantissa, and the exponent it gives. *)
Lemma shr_fexp_spec (m e : Z) (l : location) :
  0 <= m ->
  let n := Z.max 0 (fexp prec emax (Zdigits2 m + e) - e) in
  shr_m (fst (shr_fexp prec emax m e l)) = m / 2 ^ n /\
  snd (shr_fexp prec emax m e l) = e + n.
Proof.
  intros Hm n. unfold shr_fexp, shr. subst n.
  destruct (fexp prec emax (Zdigits2 m + e) - e) as [|p|p] eqn:E; simpl fst; simpl snd.
  - rewrite shr_record_of_loc_m. simpl. rewrite Z.div_1_r. lia.
  - rewrite iter_shr_1_m by (rewrite shr_record_of_loc_m; lia).
    rewrite shr_record_of_loc_m.
    rewrite Z.max_r by lia. split; [reflexivity | lia].
  - rewrite shr_record_of_loc_m. rewrite Z.max_l by lia.
    simpl. rewrite Z.div_1_r. lia.
Qed.

Lemma round_nearest_even_bounds (m : Z) (l : location) :
  m <= round_nearest_even m l <= m + 1.
Proof.
  destruct l as [|[]]; simpl; try lia.
  destruct (Z.even m); lia.
Qed.

Lemma fexp_eq (x : Z) : fexp prec emax x = Z.max (x - 53) (-1074).
Proof. reflexivity. Qed.

(** Rounding keeps a mantissa of the normal range positive, and raises the
    exponent by no more than the excess digits call for. *)
Lemma binary_round_aux_spec (s : bool) (m e : Z) (l : location) :
  0 <= m ->
  exists m2 e2,
    binary_round_aux prec emax s m e l = round_result s m2 e2 /\
    0 <= m2 /\
    (0 < m -> -1021 <= Zdigits2 m + e -> 0 < m2) /\
    e2 <= Z.max (Z.max e (-1074)) (Zdigits2 m + e - 52).
Proof.
  intros Hm. unfold binary_round_aux.
  pose proof (shr_fexp_spec m e l Hm) as [Hm1 He1].
  destruct (shr_fexp prec emax m e l) as [mrs1 e1]. simpl fst in Hm1. simpl snd in He1.
  set (r := round_nearest_even (shr_m mrs1) (loc_of_shr_record mrs1)).
  pose proof (round_nearest_even_bounds (shr_m mrs1) (loc_of_shr_record mrs1)) as Hr.
  fold r in Hr.
  set (n1 := Z.max 0 (fexp prec emax (Zdigits2 m + e) - e)) in *.
  assert (Hn1 : 0 <= n1) by (unfold n1; lia).
  assert (Hm1nn : 0 <= shr_m mrs1).
  { rewrite Hm1. apply Z.div_pos; [lia | apply Z.pow_pos_nonneg; lia]. }
  assert (Hrnn : 0 <= r) by lia.
  pose proof (shr_fexp_spec r e1 loc_Exact Hrnn) as [Hm2 He2].
  destruct (shr_fexp prec emax r e1 loc_Exact) as [mrs2 e2]. simpl fst in Hm2. simpl snd in He2.
  set (n2 := Z.max 0 (fexp prec emax (Zdigits2 r + e1) - e1)) in *.
  assert (Hn2 : 0 <= n2) by (unfold n2; lia).
  assert (Hm2nn : 0 <= shr_m mrs2).
  { rewrite Hm2. apply Z.div_pos; [lia | apply Z.pow_pos_nonneg; lia]. }
  (* digits along the way *)
  pose proof (Zdigits2_shift m n1 Hm Hn1) as Hd1. rewrite <- Hm1 in Hd1.
  pose proof (Zdigits2_shift r n2 Hrnn Hn2) as Hd2. rewrite <- Hm2 in Hd2.
  pose proof (Zdigits2_mono (shr_m mrs1) r Hm1nn (proj1 Hr)) as Hdr1.
  assert (Hdr2 : Zdigits2 r <= Zdigits2 (shr_m mrs1) + 1).
  { etransitivity; [apply Zdigits2_mono; [lia | apply (proj2 Hr)] |].
    apply Zdigits2_succ; lia. }
  pose proof (Zdigits2_nonneg m) as Hdm.
  exists (shr_m mrs2), e2. split; [|split; [|split]].
  - unfold round_result. destruct (shr_m mrs2); reflexivity.
  - exact Hm2nn.
  - intros Hpos Hnorm.
    pose proof (Zdigits2_pos m Hpos) as Hdpos.
    assert (0 < Zdigits2 (shr_m mrs2)).
    { unfold n1, n2 in *. rewrite !fexp_eq in *. lia. }
    destruct (shr_m mrs2); simpl in *; lia.
  - unfold n1, n2 in *. rewrite !fexp_eq in *. lia.
Qed.

Lemma Zdigits2_lower (a : Z) : 0 < a -> 2 ^ (Zdigits2 a - 1) <= a.
Proof.
  intros Ha. rewrite Zdigits2_log2 by lia.
  replace (Z.log2 a + 1 - 1) with (Z.log2 a) by lia.
  apply Z.log2_spec; lia.
Qed.

Lemma Zdigits2_upper (a : Z) : 0 <= a -> a < 2 ^ Zdigits2 a.
Proof.
  intros Ha. apply Zdigits2_le_iff; try lia. apply Zdigits2_nonneg.
Qed.

Lemma Zdigits2_mul_pow2 (a s : Z) :
  0 < a -> 0 <= s -> Zdigits2 (a * 2 ^ s) = Zdigits2 a + s.
Proof.
  intros Ha Hs.
  assert (0 < 2 ^ s) by (apply Z.pow_pos_nonneg; lia).
  rewrite !Zdigits2_log2 by nia.
  rewrite Z.log2_mul_pow2 by lia. lia.
Qed.

(** The digits of a quotient. *)
Lemma Zdigits2_div_upper (x b : Z) :
  0 <= x -> 0 < b -> Zdigits2 (x / b) <= Z.max 0 (Zdigits2 x - Zdigits2 b + 1).
Proof.
  intros Hx Hb.
  pose proof (Zdigits2_upper x Hx) as Hux.
  pose proof (Zdigits2_lower b Hb) as Hlb.
  pose proof (Zdigits2_pos b Hb) as Hdb.
  pose proof (Zdigits2_nonneg x) as Hdx.
  set (k := Z.max 0 (Zdigits2 x - Zdigits2 b + 1)).
  apply Zdigits2_le_iff; [apply Z.div_pos; lia | lia |].
  apply Z.div_lt_upper_bound; [lia|].
  assert (Hle : 2 ^ Zdigits2 x <= 2 ^ (Zdigits2 b - 1) * 2 ^ k).
  { rewrite <- Z.pow_add_r by lia. apply Z.pow_le_mono_r; lia. }
  assert (0 < 2 ^ k) by (apply Z.pow_pos_nonneg; lia).
  nia.
Qed.

Lemma Zdigits2_div_lower (x b : Z) :
  0 < x -> 0 < b -> Zdigits2 x - Zdigits2 b <= Zdigits2 (x / b).
Proof.
  intros Hx Hb.
  pose proof (Zdigits2_lower x Hx) as Hlx.
  pose proof (Zdigits2_upper b (Z.lt_le_incl _ _ Hb)) as Hub.
  pose proof (Zdigits2_pos b Hb) as Hdb.
  pose proof (Zdigits2_pos x Hx) as Hdx.
  assert (Hq : 0 <= x / b) by (apply Z.div_pos; lia).
  pose proof (Zdigits2_nonneg (x / b)) as Hdq.
  destruct (Z_le_gt_dec (Zdigits2 x - Zdigits2 b) 0) as [|Hgt]; [lia|].
  set (k := Zdigits2 x - Zdigits2 b - 1).
  assert (Hk : 0 <= k) by (unfold k; lia).
  destruct (Z_le_gt_dec (Zdigits2 (x / b)) k) as [Hle|]; [|unfold k in *; lia].
  exfalso.
  apply Zdigits2_le_iff in Hle; try lia.
  assert (Hge : 2 ^ k <= x / b).
  { apply Z.div_le_lower_bound; [lia|].
    assert (Hpk : 0 < 2 ^ k) by (apply Z.pow_pos_nonneg; lia).
    assert (Hlt : b * 2 ^ k <= 2 ^ Zdigits2 b * 2 ^ k) by nia.
    rewrite <- Z.pow_add_r in Hlt by lia.
    replace (Zdigits2 b + k) with (Zdigits2 x - 1) in Hlt by (unfold k; lia).
    lia. }
  lia.
Qed.

(** The quotient and the exponent that [SFdiv] hands to the rounding. *)
Lemma SFdiv_core_binary_spec (m1 m2 : positive) (e1 e2 : Z) :
  let e' := Z.min (fexp prec emax (Zdigits2 (Zpos m1) + e1 - (Zdigits2 (Zpos m2) + e2)))
                  (e1 - e2) in
  exists l,
    SFdiv_core_binary prec emax (Zpos m1) e1 (Zpos m2) e2
    = (Zpos m1 * 2 ^ (e1 - e2 - e') / Zpos m2, e', l).
Proof.
  intros e'. unfold SFdiv_core_binary. fold e'.
  assert (Hs : 0 <= e1 - e2 - e') by (unfold e'; lia).
  assert (Hm' : match e1 - e2 - e' with
                | Zpos _ => Z.shiftl (Zpos m1) (e1 - e2 - e')
                | Z0 => Zpos m1
                | Zneg _ => 0
                end = Zpos m1 * 2 ^ (e1 - e2 - e')).
  { destruct (e1 - e2 - e') as [|p|p] eqn:E; try lia.
    - rewrite Z.shiftl_mul_pow2 by lia. reflexivity. }
  rewrite Hm'.
  set (x := Zpos m1 * 2 ^ (e1 - e2 - e')).
  assert (Hde : Z.div_eucl x (Zpos m2) = (x / Zpos m2, x mod Zpos m2)).
  { unfold Z.div, Z.modulo. destruct (Z.div_eucl x (Zpos m2)); reflexivity. }
  rewrite Hde. eexists. reflexivity.
Qed.

(** [n / n] is [1.0], whatever the size of [n]. *)
Lemma SFdiv_same (p : positive) :
  SFdiv prec emax (S754_finite false p 0) (S754_finite false p 0) = f1.
Proof.
  unfold SFdiv, SFdiv_core_binary.
  replace (Zdigits2 (Zpos p) + 0 - (Zdigits2 (Zpos p) + 0)) with 0 by lia.
  change (Z.min (fexp prec emax 0) (0 - 0)) with (-53).
  change (0 - 0 - -53) with 53.
  rewrite Z.shiftl_mul_pow2 by lia.
  assert (Hde : Z.div_eucl (Zpos p * 2 ^ 53) (Zpos p) = (2 ^ 53, 0)).
  { pose proof (Z.div_eucl_eq (Zpos p * 2 ^ 53) (Zpos p) ltac:(lia)) as Heq.
    pose proof (Z.mod_pos_bound (Zpos p * 2 ^ 53) (Zpos p) ltac:(lia)) as Hb.
    unfold Z.modulo in Hb.
    destruct (Z.div_eucl (Zpos p * 2 ^ 53) (Zpos p)) as [q r].
    assert (q = 2 ^ 53) by nia. assert (r = 0) by nia. subst. reflexivity. }
  rewrite Hde.
  assert (Hl : new_location (Zpos p) 0 = loc_Exact).
  { unfold new_location. destruct (Z.even (Zpos p)); reflexivity. }
  rewrite Hl. reflexivity.
Qed.

Lemma round_result_not_infinite (s : bool) (m e : Z) :
  e <= 971 -> is_infinite (round_result s m e) = false.
Proof.
  intros He. unfold round_result. destruct m; try reflexivity.
  change (emax - prec) with 971.
  destruct (Z.leb_spec e 971); [reflexivity | lia].
Qed.

Lemma round_result_not_zero (s : bool) (m e : Z) :
  0 < m -> is_zero (round_result s m e) = false.
Proof.
  intros Hm. unfold round_result. destruct m; try lia.
  destruct (e <=? emax - prec); reflexivity.
Qed.

(** A quotient of two ints that is at most 1 is a float: no
    [OverflowError]. *)
Lemma int_truediv_le (a b : Z) :
  0 <= a <= b -> 0 < b ->
  int_truediv a b = Val (SFdiv prec emax (exact_int a) (exact_int b)).
Proof.
  intros Hab Hb. unfold int_truediv.
  destruct (Z.eqb_spec b 0); [lia|].
  destruct b as [|pb|pb]; try lia.
  destruct a as [|pa|pa]; try lia; [reflexivity|].
  simpl exact_int. unfold SFdiv.
  destruct (SFdiv_core_binary_spec pa pb 0 0) as [l Hcore].
  rewrite Hcore. simpl xorb.
  set (e' := Z.min (fexp prec emax (Zdigits2 (Zpos pa) + 0 - (Zdigits2 (Zpos pb) + 0))) (0 - 0)) in *.
  set (q := Zpos pa * 2 ^ (0 - 0 - e') / Zpos pb).
  assert (He' : e' <= 0) by (unfold e'; lia).
  assert (Hq : 0 <= q).
  { unfold q. apply Z.div_pos; [|lia].
    assert (0 < 2 ^ (0 - 0 - e')) by (apply Z.pow_pos_nonneg; lia). lia. }
  destruct (binary_round_aux_spec false q e' l Hq) as (m2 & e2 & Heq & _ & _ & Hle).
  rewrite Heq.
  assert (Hdq : Zdigits2 q <= Z.max 0 (1 - e')).
  { unfold q.
    etransitivity; [apply Zdigits2_div_upper; [|lia]|].
    - assert (0 < 2 ^ (0 - 0 - e')) by (apply Z.pow_pos_nonneg; lia). lia.
    - rewrite Zdigits2_mul_pow2 by lia.
      pose proof (Zdigits2_mono (Zpos pa) (Zpos pb) ltac:(lia) ltac:(lia)). lia. }
  rewrite round_result_not_infinite by lia. reflexivity.
Qed.

(** [float(n)] exists for every length a Python sequence can have. *)
Lemma float_of_int_small (n : Z) :
  0 <= n < 2 ^ 63 ->
  exists f, float_of_int n = Val f /\ is_nan f = false.
Proof.
  intros Hn. unfold float_of_int, binary_normalize.
  destruct n as [|p|p]; try lia.
  - eexists; split; reflexivity.
  - unfold binary_round.
    assert (Hd : Zdigits2 (Zpos p) <= 63).
    { apply Zdigits2_le_iff; lia. }
    change (Zpos (digits2_pos p)) with (Zdigits2 (Zpos p)).
    generalize (fexp prec emax (Zdigits2 (Zpos p) + 0)). intros F.
    destruct (shl_align p 0 F) as [mz ez] eqn:E.
    assert (Hsh : Zpos mz = Zpos p * 2 ^ (0 - ez) /\ ez <= 0).
    { unfold shl_align in E.
      destruct (F - 0) as [|d|d] eqn:Ed; injection E as <- <-.
      - change (2 ^ (0 - 0)) with 1. split; [ring | apply Z.le_refl].
      - change (2 ^ (0 - 0)) with 1. split; [ring | apply Z.le_refl].
      - fold (shift_pos d p). rewrite shift_pos_correct.
        replace (0 - F) with (Zpos d) by lia.
        rewrite Zpower_pos_nat, Zpower_nat_Z, positive_nat_Z. lia. }
    destruct Hsh as [Hmz Hez].
    destruct (binary_round_aux_spec false (Zpos mz) ez loc_Exact ltac:(lia))
      as (m2 & e2 & Heq & Hm2 & _ & Hle).
    rewrite Heq.
    assert (Zdigits2 (Zpos mz) + ez <= 63).
    { rewrite Hmz, Zdigits2_mul_pow2 by lia. lia. }
    rewrite round_result_not_infinite by lia.
    eexists; split; [reflexivity|].
    unfold round_result. destruct m2; try lia; try reflexivity.
    destruct (e2 <=? emax - prec); reflexivity.
Qed.

(** A float that is not below 1 has its leading bit at or above the
    units. *)
Lemma not_below_one_digits (m : positive) (e : Z) :
  ltb (PyFloat (S754_finite false m e)) (PyInt 1) = false ->
  1 <= Zdigits2 (Zpos m) + e.
Proof.
  unfold ltb, compare. simpl. unfold dyadic_compare.
  intros H.
  destruct (Z_le_gt_dec 1 (Zdigits2 (Zpos m) + e)) as [|Hgt]; [assumption|exfalso].
  pose proof (Zdigits2_upper (Zpos m) ltac:(lia)) as Hu.
  pose proof (Zdigits2_pos (Zpos m) ltac:(lia)) as Hd.
  assert (He : e < 0) by lia.
  rewrite Z.min_l in H by lia.
  replace (e - e) with 0 in H by lia.
  assert (Hlt : Zpos m * 2 ^ 0 < 1 * 2 ^ (0 - e)).
  { change (2 ^ 0) with 1.
    assert (2 ^ Zdigits2 (Zpos m) <= 2 ^ (0 - e)) by (apply Z.pow_le_mono_r; lia).
    lia. }
  apply Z.compare_lt_iff in Hlt. rewrite Hlt in H. discriminate.
Qed.

(** Dividing a float that is not below 1 by [60.0] never gives zero. *)
Lemma div60_not_zero (d : float) :
  ltb (PyFloat d) (PyInt 1) = false ->
  is_zero (fdiv d f60) = false.
Proof.
  intros Hlt.
  destruct d as [s|s| |s m e]; try reflexivity.
  - (* zero is below 1 *) exfalso. revert Hlt. destruct s; discriminate.
  - (* a negative float is below 1 *)
    destruct s.
    { exfalso. revert Hlt. unfold ltb, compare. simpl. unfold dyadic_compare.
      assert (H : Zneg m * 2 ^ (e - Z.min e 0) < 1 * 2 ^ (0 - Z.min e 0)).
      { assert (0 < 2 ^ (e - Z.min e 0)) by (apply Z.pow_pos_nonneg; lia).
        assert (0 < 2 ^ (0 - Z.min e 0)) by (apply Z.pow_pos_nonneg; lia).
        nia. }
      apply Z.compare_lt_iff in H. rewrite H. discriminate. }
    pose proof (not_below_one_digits m e Hlt) as Htop.
    unfold fdiv, f60, SFdiv.
    destruct (SFdiv_core_binary_spec m 8444249301319680 e (-47)) as [l Hcore].
    rewrite Hcore. clear Hcore. simpl xorb.
    change (Zdigits2 (Zpos 8444249301319680)) with 53.
    set (e' := Z.min (fexp prec emax (Zdigits2 (Zpos m) + e - (53 + -47))) (e - -47)).
    set (x := Zpos m * 2 ^ (e - -47 - e')).
    assert (He' : e' = Z.min (Zdigits2 (Zpos m) + e - 59) (e + 47)).
    { unfold e'. rewrite fexp_eq. lia. }
    assert (Hs : 0 <= e - -47 - e') by lia.
    assert (Hx : 0 < x).
    { unfold x. assert (0 < 2 ^ (e - -47 - e')) by (apply Z.pow_pos_nonneg; lia). lia. }
    assert (Hdx : Zdigits2 x = Zdigits2 (Zpos m) + (e - -47 - e')).
    { unfold x. apply Zdigits2_mul_pow2; lia. }
    pose proof (Zdigits2_div_lower x (Zpos 8444249301319680) Hx ltac:(lia)) as Hdq.
    change (Zdigits2 (Zpos 8444249301319680)) with 53 in Hdq.
    set (q := x / Zpos 8444249301319680) in *.
    assert (Hq : 0 < q).
    { destruct (Z_lt_le_dec 0 q) as [|Hle]; [assumption|exfalso].
      assert (0 <= q) by (apply Z.div_pos; lia).
      assert (q = 0) by lia.
      assert (Zdigits2 q = 0) by (subst q; match goal with H : _ = 0 |- _ => rewrite H end; reflexivity).
      lia. }
    destruct (binary_round_aux_spec false q e' l ltac:(lia)) as (m2 & e2 & Heq & _ & Hpos & _).
    rewrite Heq. apply round_result_not_zero. apply Hpos; lia.
Qed.

(** The divisor of [calculate_speed]: [max(diff, 1) / 60.0] is a float that
    is not zero. *)
Lemma elapsed_minutes_not_zero (d : float) :
  exists em,
    truediv (max2 (PyFloat d) (PyInt 1)) (PyFloat f60) = Val (PyFloat em) /\
    is_zero em = false.
Proof.
  unfold max2, gtb.
  destruct (ltb (PyFloat d) (PyInt 1)) eqn:Hlt.
  - eexists. split; [vm_compute; reflexivity | reflexivity].
  - exists (fdiv d f60). split; [reflexivity | apply div60_not_zero; assumption].
Qed.

(* ================================================================== *)
(** * The order on numbers *)
(* ================================================================== *)

Lemma value_is_number (x : num) :
  is_number x = true -> exists v, value x = Some v.
Proof.
  destruct x as [z|[s|s| |s m e]]; simpl; intros H; try discriminate; eauto.
Qed.

(** Two binary fractions compare the same at any common exponent below
    both. *)
Lemma dyadic_compare_align (m1 e1 m2 e2 E : Z) :
  E <= e1 -> E <= e2 ->
  dyadic_compare m1 e1 m2 e2 = Z.compare (m1 * 2 ^ (e1 - E)) (m2 * 2 ^ (e2 - E)).
Proof.
  intros H1 H2. unfold dyadic_compare.
  set (e := Z.min e1 e2).
  assert (Hp : 0 < 2 ^ (e - E)) by (apply Z.pow_pos_nonneg; unfold e; lia).
  replace (e1 - E) with ((e1 - e) + (e - E)) by lia.
  replace (e2 - E) with ((e2 - e) + (e - E)) by lia.
  rewrite !Z.pow_add_r by (unfold e; lia).
  rewrite !Z.mul_assoc.
  apply Zmult_compare_compat_r. lia.
Qed.

Lemma xval_ge_trans (a b c : xval) :
  xval_ge a b -> xval_ge b c -> xval_ge a c.
Proof.
  unfold xval_ge.
  destruct a as [|m1 e1|], b as [|m2 e2|], c as [|m3 e3|]; simpl;
    try congruence.
  set (E := Z.min e1 (Z.min e2 e3)).
  rewrite (dyadic_compare_align m1 e1 m2 e2 E) by (unfold E; lia).
  rewrite (dyadic_compare_align m2 e2 m3 e3 E) by (unfold E; lia).
  rewrite (dyadic_compare_align m1 e1 m3 e3 E) by (unfold E; lia).
  rewrite !Z.compare_lt_iff. lia.
Qed.

Lemma geb_iff (x y : num) :
  geb x y = true <-> exists a b, value x = Some a /\ value y = Some b /\ xval_ge a b.
Proof.
  unfold geb, compare, xval_ge.
  destruct (value x) as [a|], (value y) as [b|]; split;
    try (intros H; discriminate H);
    try (intros (a' & b' & Ha & Hb & _); discriminate).
  - intros H. exists a, b. repeat split.
    destruct (xval_compare a b); congruence.
  - intros (a' & b' & Ha & Hb & Hge). inversion Ha; inversion Hb; subst.
    destruct (xval_compare a' b'); congruence.
Qed.

Lemma geb_trans (x y z : num) :
  geb x y = true -> geb y z = true -> geb x z = true.
Proof.
  rewrite !geb_iff.
  intros (a & b & Ha & Hb & H1) (b' & c & Hb' & Hc & H2).
  rewrite Hb in Hb'. inversion Hb'; subst b'.
  exists a, c. repeat split; auto. eapply xval_ge_trans; eauto.
Qed.

(** On numbers, [not (x < y)] is [x >= y]. *)
Lemma not_ltb_geb (x y : num) :
  is_number x = true -> is_number y = true ->
  ltb x y = false -> geb x y = true.
Proof.
  intros Hx Hy.
  destruct (value_is_number x Hx) as [a Ha], (value_is_number y Hy) as [b Hb].
  unfold ltb, geb, compare. rewrite Ha, Hb.
  destruct (xval_compare a b); congruence.
Qed.

Lemma xval_compare_antisym (a b : xval) :
  xval_compare b a = CompOpp (xval_compare a b).
Proof.
  destruct a as [|m1 e1|], b as [|m2 e2|]; simpl; try reflexivity.
  unfold dyadic_compare. rewrite (Z.min_comm e2 e1). apply Z.compare_antisym.
Qed.

Lemma ltb_geb (x y : num) : ltb x y = true -> geb y x = true.
Proof.
  unfold ltb, geb, compare.
  destruct (value x) as [a|], (value y) as [b|]; try discriminate.
  rewrite (xval_compare_antisym a b).
  destruct (xval_compare a b); simpl; congruence.
Qed.

(* ================================================================== *)
(** * Sorting the table *)
(* ================================================================== *)

Lemma insert_desc_perm (r : ScoreRecord) (l : list ScoreRecord) :
  Permutation (insert_desc r l) (r :: l).
Proof.
  induction l as [|h t IH]; simpl.
  - apply Permutation_refl.
  - destruct (ltb (score r) (score h)).
    + eapply perm_trans; [apply perm_skip, IH | apply perm_swap].
    + apply Permutation_refl.
Qed.

Lemma sort_desc_perm (l : list ScoreRecord) : Permutation (sort_desc l) l.
Proof.
  induction l as [|h t IH]; simpl.
  - apply perm_nil.
  - eapply perm_trans; [apply insert_desc_perm | apply perm_skip, IH].
Qed.

Lemma insert_desc_sorted (r : ScoreRecord) (l : list ScoreRecord) :
  has_number r -> Forall has_number l ->
  StronglySorted score_ge l -> StronglySorted score_ge (insert_desc r l).
Proof.
  intros Hr Hl Hs. induction Hs as [|h t Hs IH Hh]; simpl.
  - constructor; constructor.
  - inversion Hl as [|? ? Hnh Hnt]; subst.
    destruct (ltb (score r) (score h)) eqn:Hlt.
    + constructor; [apply IH; assumption|].
      eapply Permutation_Forall; [apply Permutation_sym, insert_desc_perm|].
      constructor; [apply ltb_geb; exact Hlt | exact Hh].
    + assert (Hrh : score_ge r h) by (apply not_ltb_geb; assumption).
      constructor; [constructor; assumption|].
      constructor; [exact Hrh|].
      eapply Forall_impl; [|exact Hh].
      intros x Hx. unfold score_ge in *. eapply geb_trans; eauto.
Qed.

Lemma sort_desc_sorted (l : list ScoreRecord) :
  Forall has_number l -> StronglySorted score_ge (sort_desc l).
Proof.
  induction l as [|h t IH]; intros Hl; simpl.
  - constructor.
  - inversion Hl; subst.
    apply insert_desc_sorted; auto.
    eapply Permutation_Forall; [apply Permutation_sym, sort_desc_perm | assumption].
Qed.

Lemma firstn_In {A} (n : nat) (l : list A) (x : A) :
  In x (firstn n l) -> In x l.
Proof.
  intros H. rewrite <- (firstn_skipn n l). apply in_or_app. left. exact H.
Qed.

Lemma firstn_sorted (n : nat) (l : list ScoreRecord) :
  StronglySorted score_ge l -> StronglySorted score_ge (firstn n l).
Proof.
  intros Hs. revert n. induction Hs as [|h t Hs IH Hh]; intros [|n]; simpl;
    try constructor.
  - apply IH.
  - rewrite Forall_forall in *. intros x Hx. apply Hh.
    eapply firstn_In; exact Hx.
Qed.

(* ================================================================== *)
(** * Words and matching positions *)
(* ================================================================== *)

Lemma split_from_length (s word : str) :
  (List.length (split_from word s) <= List.length s + List.length word)%nat.
Proof.
  revert word. induction s as [|c t IH]; intros word; simpl.
  - destruct word; simpl; lia.
  - destruct (isspace c).
    + destruct word as [|x word'].
      * specialize (IH []). simpl in IH. lia.
      * simpl. specialize (IH []). simpl in IH. lia.
    + specialize (IH (c :: word)). simpl in IH. lia.
Qed.

Lemma word_count_le_len (s : str) : 0 <= word_count s <= len s.
Proof.
  unfold word_count, len, split.
  pose proof (split_from_length s []) as H. simpl in H. lia.
Qed.

Lemma sum_bools_count (l : list bool) :
  sum_bools l = Z.of_nat (List.length (filter (fun b => b) l)).
Proof.
  unfold sum_bools.
  assert (H : forall acc, fold_left (fun a (b : bool) => a + (if b then 1 else 0)) l acc
                          = acc + Z.of_nat (List.length (filter (fun b => b) l))).
  { induction l as [|b t IH]; intros acc; simpl.
    - lia.
    - rewrite IH. destruct b; simpl List.length; lia. }
  rewrite H. lia.
Qed.

Lemma filter_map_length {A B} (f : B -> bool) (g : A -> B) (l : list A) :
  List.length (filter f (List.map g l)) = List.length (filter (fun x => f (g x)) l).
Proof.
  induction l as [|a t IH]; simpl; [reflexivity|].
  destruct (f (g a)); simpl; rewrite IH; reflexivity.
Qed.

Lemma matches_positional (typed original : str) :
  matches typed original = positional_matches typed original.
Proof.
  unfold matches, positional_matches. rewrite sum_bools_count. f_equal.
  rewrite filter_map_length.
  revert original. induction typed as [|a t IH]; intros [|b o]; simpl; try reflexivity.
  rewrite <- seq_shift.
  destruct (char_eqb a b); simpl; rewrite filter_map_length, IH; reflexivity.
Qed.

Lemma matches_bounds (typed original : str) :
  0 <= matches typed original <= len original.
Proof.
  unfold matches, len. rewrite sum_bools_count.
  split; [lia|].
  apply Nat2Z.inj_le.
  etransitivity; [apply filter_length_le|].
  rewrite length_map, length_combine. lia.
Qed.

Lemma matches_same (t : str) : matches t t = len t.
Proof.
  unfold matches, len. rewrite sum_bools_count. f_equal.
  induction t as [|a t IH]; simpl; [reflexivity|].
  unfold char_eqb at 1. rewrite N.eqb_refl. simpl. rewrite IH. reflexivity.
Qed.

Lemma combine_firstn_r (typed original : str) :
  combine (firstn (List.length original) typed) original = combine typed original.
Proof.
  revert original. induction typed as [|a t IH]; intros [|b o]; simpl; try reflexivity.
  rewrite IH. reflexivity.
Qed.

(* ================================================================== *)
(** * [calculate_accuracy] *)
(* ================================================================== *)

Lemma float_of_int_100 : float_of_int 100 = Val f100.
Proof. vm_compute. reflexivity. Qed.

Example float_of_int_60 : float_of_int 60 = Val f60.
Proof. vm_compute. reflexivity. Qed.

Example float_of_int_1 : float_of_int 1 = Val f1.
Proof. vm_compute. reflexivity. Qed.

Example split_two_words :
  split (lit "  hello   world ") = [lit "hello"; lit "world"].
Proof. reflexivity. Qed.

Example strip_display :
  strip (lit " hello there" ++ [10%N]) = lit "hello there".
Proof. reflexivity. Qed.

Lemma truthy_false (s : str) : truthy s = false <-> s = [].
Proof. destruct s; simpl; split; congruence. Qed.

Lemma calculate_accuracy_nonempty (typed original : str) (w : World) :
  original <> [] ->
  calculate_accuracy typed original w
  = (Done (accuracy_value (matches typed original) original),
     show_accuracy (accuracy_value (matches typed original) original) w).
Proof.
  intros Hne. unfold calculate_accuracy.
  destruct original as [|c o]; [congruence|]. simpl truthy. simpl negb. cbv iota.
  pose proof (matches_bounds typed (c :: o)) as Hb.
  assert (Hl : 0 < len (c :: o)) by (unfold len; simpl List.length; lia).
  unfold bind, eval, truediv.
  rewrite int_truediv_le by lia. simpl res_bind. unfold ret at 1.
  cbv [mul as_float res_bind]. rewrite float_of_int_100.
  reflexivity.
Qed.

Lemma positional_accuracy_nonempty (typed original : str) :
  original <> [] ->
  positional_accuracy typed original
  = Val (accuracy_value (matches typed original) original).
Proof.
  intros Hne. destruct original as [|c o]; [congruence|].
  unfold positional_accuracy. rewrite <- matches_positional.
  pose proof (matches_bounds typed (c :: o)) as Hb.
  assert (Hl : 0 < len (c :: o)) by (unfold len; simpl List.length; lia).
  unfold truediv. rewrite int_truediv_le by lia.
  cbv [mul as_float res_bind]. rewrite float_of_int_100. reflexivity.
Qed.

Lemma calculate_accuracy_empty (typed : str) (w : World) :
  calculate_accuracy typed [] w = (Done (PyInt 0), w).
Proof. reflexivity. Qed.

Lemma matches_firstn (typed original : str) :
  matches (firstn (List.length original) typed) original = matches typed original.
Proof. unfold matches. rewrite combine_firstn_r. reflexivity. Qed.

(** C1.  For every typed and original text: with an empty original,
    [calculate_accuracy] returns 0; in every case it returns the value of
    the specification's positional formula (the number of positions below
    both lengths at which the texts agree, over the length of the original,
    times 100), and that formula raises nothing; the characters of the
    typed text from position [len(original_text)] on do not change what
    the call does.  For "hello world" typed against "hello there" six
    positions agree, and the call returns the float 6/11*100, which is
    54.54545454545454. *)
Theorem calculate_accuracy_positional (typed original : str) (w : World) :
  fst (calculate_accuracy typed [] w) = Done (PyInt 0) /\
  (exists a,
     positional_accuracy typed original = Val a /\
     fst (calculate_accuracy typed original w) = Done a) /\
  calculate_accuracy (firstn (List.length original) typed) original w
  = calculate_accuracy typed original w /\
  (positional_matches (lit "hello world") (lit "hello there") = 6 /\
   positional_accuracy (lit "hello world") (lit "hello there")
   = Val (PyFloat (S754_finite false 7676590273926981 (-47))) /\
   fst (calculate_accuracy (lit "hello world") (lit "hello there") w)
   = Done (PyFloat (S754_finite false 7676590273926981 (-47)))).
Proof.
  split; [|split; [|split]].
  - reflexivity.
  - destruct original as [|c o].
    + exists (PyInt 0). split; reflexivity.
    + eexists. split.
      * apply positional_accuracy_nonempty. discriminate.
      * rewrite calculate_accuracy_nonempty by discriminate. reflexivity.
  - destruct original as [|c o].
    + reflexivity.
    + rewrite !calculate_accuracy_nonempty by discriminate.
      rewrite matches_firstn. reflexivity.
  - split; [vm_compute; reflexivity|]. split; [vm_compute; reflexivity|].
    rewrite calculate_accuracy_nonempty by discriminate.
    vm_compute. reflexivity.
Qed.

Lemma accuracy_same (t : str) :
  t <> [] -> accuracy_value (matches t t) t = PyFloat f100.
Proof.
  intros Hne. unfold accuracy_value. rewrite matches_same.
  destruct t as [|c o]; [congruence|].
  unfold len. simpl List.length. rewrite Nat2Z.inj_succ.
  destruct (Z.succ (Z.of_nat (List.length o))) as [|p|p] eqn:E; try lia.
  simpl exact_int. rewrite SFdiv_same. reflexivity.
Qed.

Lemma accuracy_none_typed (original : str) :
  original <> [] -> accuracy_value (matches [] original) original = PyFloat (S754_zero false).
Proof.
  intros Hne. unfold accuracy_value.
  destruct original as [|c o]; [congruence|].
  unfold len. simpl List.length. rewrite Nat2Z.inj_succ.
  destruct (Z.succ (Z.of_nat (List.length o))) as [|p|p] eqn:E; try lia.
  reflexivity.
Qed.

(** C9.  For every non-empty [t], [calculate_accuracy(t, t) == 100]; for
    every non-empty [original], [calculate_accuracy("", original) == 0];
    and for every [x], [calculate_accuracy(x, "") == 0].  [==] is Python's
    comparison of numbers. *)
Theorem accuracy_identities (t original x : str) (w : World) :
  t <> [] ->
  original <> [] ->
  (exists a, fst (calculate_accuracy t t w) = Done a /\ eqb a (PyInt 100) = true) /\
  (exists a, fst (calculate_accuracy [] original w) = Done a /\ eqb a (PyInt 0) = true) /\
  (exists a, fst (calculate_accuracy x [] w) = Done a /\ eqb a (PyInt 0) = true).
Proof.
  intros Ht Ho. split; [|split].
  - exists (PyFloat f100). split; [|reflexivity].
    rewrite calculate_accuracy_nonempty by assumption.
    simpl fst. rewrite accuracy_same by assumption. reflexivity.
  - exists (PyFloat (S754_zero false)). split; [|reflexivity].
    rewrite calculate_accuracy_nonempty by assumption.
    simpl fst. rewrite accuracy_none_typed by assumption. reflexivity.
  - exists (PyInt 0). split; reflexivity.
Qed.

Lemma accuracy_identities_witness :
  (exists a, fst (calculate_accuracy (lit "abc") (lit "abc") idle_world) = Done a
             /\ eqb a (PyInt 100) = true) /\
  (exists a, fst (calculate_accuracy [] (lit "xyz") idle_world) = Done a
             /\ eqb a (PyInt 0) = true) /\
  (exists a, fst (calculate_accuracy (lit "q") [] idle_world) = Done a
             /\ eqb a (PyInt 0) = true).
Proof.
  apply (accuracy_identities (lit "abc") (lit "xyz") (lit "q") idle_world);
    unfold lit; simpl; discriminate.
Defined.

(* ================================================================== *)
(** * [calculate_speed] *)
(* ================================================================== *)

(** A clock reading minus itself is [+0.0]. *)
Lemma fsub_same (t : float) : is_finite t = true -> fsub t t = S754_zero false.
Proof.
  destruct t as [s|s| |s m e]; try discriminate; intros _.
  - destruct s; reflexivity.
  - unfold fsub, SFsub. rewrite Z.min_id.
    unfold shl_align. rewrite Z.sub_diag. cbv iota beta. unfold fst.
    replace (cond_Zopp s (Zpos m) - cond_Zopp s (Zpos m)) with 0 by lia.
    reflexivity.
Qed.

Lemma round_result_not_nan (s : bool) (m e : Z) :
  0 <= m -> is_nan (round_result s m e) = false.
Proof.
  intros Hm. unfold round_result. destruct m; try lia; try reflexivity.
  destruct (e <=? emax - prec); reflexivity.
Qed.

Lemma binary_round_not_nan (s : bool) (p : positive) (e : Z) :
  is_nan (binary_round prec emax s p e) = false.
Proof.
  unfold binary_round.
  destruct (shl_align p e (fexp prec emax (Zpos (digits2_pos p) + e))) as [mz ez].
  destruct (binary_round_aux_spec s (Zpos mz) ez loc_Exact ltac:(lia))
    as (m2 & e2 & Heq & Hm2 & _).
  rewrite Heq. apply round_result_not_nan. exact Hm2.
Qed.

(** The difference of two finite clock readings is not a NaN. *)
Lemma fsub_finite_not_nan (e s : float) :
  is_finite e = true -> is_finite s = true -> is_nan (fsub e s) = false.
Proof.
  destruct e as [se|se| |se me ee], s as [ss|ss| |ss ms es]; try discriminate;
    intros _ _; unfold fsub, SFsub.
  - destruct se, ss; reflexivity.
  - reflexivity.
  - reflexivity.
  - unfold binary_normalize.
    destruct (cond_Zopp se (Zpos (fst (shl_align me ee (Z.min ee es))))
              - cond_Zopp ss (Zpos (fst (shl_align ms es (Z.min ee es)))));
      [reflexivity | apply binary_round_not_nan | apply binary_round_not_nan].
Qed.

Lemma geb_refl (x : num) : is_number x = true -> geb x x = true.
Proof.
  intros Hx. destruct (value_is_number x Hx) as [a Ha].
  unfold geb, compare. rewrite Ha.
  replace (xval_compare a a) with Eq; [reflexivity|].
  destruct a as [|m e|]; simpl; try reflexivity.
  unfold dyadic_compare. symmetry. apply Z.compare_refl.
Qed.

(** [max(a, b)] of two numbers is one of them and is [>=] both. *)
Lemma max2_upper (a b : num) :
  is_number a = true -> is_number b = true ->
  geb (max2 a b) a = true /\ geb (max2 a b) b = true /\
  (max2 a b = a \/ max2 a b = b).
Proof.
  intros Ha Hb. unfold max2, gtb. destruct (ltb a b) eqn:E.
  - split; [apply ltb_geb; exact E|].
    split; [apply geb_refl; exact Hb | right; reflexivity].
  - split; [apply geb_refl; exact Ha|].
    split; [apply not_ltb_geb; assumption | left; reflexivity].
Qed.

(** [split()] returns one word for each place where a word starts, and
    one more when it is called in the middle of a word. *)
Lemma split_from_starts (s word : str) :
  List.length (split_from word s)
  = (word_starts (match word with [] => true | _ :: _ => false end) s
     + match word with [] => 0 | _ :: _ => 1 end)%nat.
Proof.
  revert word. induction s as [|c t IH]; intros word.
  - destruct word; reflexivity.
  - cbn [split_from word_starts]. destruct (isspace c) eqn:E.
    + rewrite andb_false_r.
      destruct word as [|x word']; cbn [List.length]; rewrite (IH []); lia.
    + rewrite (IH (c :: word)). destruct word; cbn [andb negb]; lia.
Qed.

Lemma word_count_whitespace_words (s : str) : word_count s = whitespace_words s.
Proof.
  unfold word_count, whitespace_words, split. rewrite split_from_starts.
  f_equal. lia.
Qed.

Lemma calculate_speed_runs (typed : str) (s e : float) (w : World) :
  start_time (self w) = Some s ->
  end_time (self w) = Some e ->
  len typed < 2 ^ 63 ->
  exists minutes wpm,
    truediv (max2 (PyFloat (fsub e s)) (PyInt 1)) (PyFloat f60) = Val (PyFloat minutes) /\
    is_zero minutes = false /\
    truediv (PyInt (word_count typed)) (PyFloat minutes) = Val wpm /\
    calculate_speed typed w = (Done wpm, show_speed wpm w).
Proof.
  intros Hs He Hlen.
  destruct (elapsed_minutes_not_zero (fsub e s)) as (minutes & Hmin & Hnz).
  pose proof (word_count_le_len typed) as Hwc.
  destruct (float_of_int_small (word_count typed) ltac:(lia)) as (words & Hwords & _).
  exists minutes, (PyFloat (fdiv words minutes)).
  assert (Hdiv : truediv (PyInt (word_count typed)) (PyFloat minutes)
                 = Val (PyFloat (fdiv words minutes))).
  { unfold truediv. cbv [as_float res_bind]. rewrite Hwords.
    unfold float_truediv. rewrite Hnz. reflexivity. }
  repeat split; try assumption.
  unfold calculate_speed, bind, get. rewrite He, Hs.
  unfold elapsed. cbv [sub as_float res_bind eval]. unfold ret at 1.
  fold (fsub e s). rewrite Hmin. unfold ret at 1.
  rewrite Hdiv. reflexivity.
Qed.

(** C2.  For every typed text and every pair of clock readings (whether or
    not the end is at or after the start), [calculate_speed] returns
    [word_count / elapsed_minutes].  [word_count] is the number of words
    that white space separates: the number of characters that are not
    white space and stand first in the text or behind a white-space
    character.  [elapsed_minutes] is [max(end_time - start_time, 1) / 60.0]:
    for finite readings the elapsed time is the difference or 1 and is
    [>=] both, and it is the floor of 1 second when the two readings are
    the same; the divisor is never zero.  The text has fewer than 2^63
    characters, as every Python string has.  Between the readings 1.0 and
    60.0, "hello world" gives 2 / (59.0 / 60.0), the float
    2.0338983050847457, and " one  two three " has three words. *)
Theorem calculate_speed_formula (typed : str) (s e : float) (w : World) :
  start_time (self w) = Some s ->
  end_time (self w) = Some e ->
  len typed < 2 ^ 63 ->
  exists minutes wpm,
    truediv (max2 (PyFloat (fsub e s)) (PyInt 1)) (PyFloat f60) = Val (PyFloat minutes) /\
    is_zero minutes = false /\
    truediv (PyInt (word_count typed)) (PyFloat minutes) = Val wpm /\
    fst (calculate_speed typed w) = Done wpm /\
    (is_finite e = true -> e = s -> max2 (PyFloat (fsub e s)) (PyInt 1) = PyInt 1) /\
    word_count typed = whitespace_words typed /\
    truediv (PyInt (whitespace_words typed)) (PyFloat minutes) = Val wpm /\
    (is_finite e = true -> is_finite s = true ->
     geb (max2 (PyFloat (fsub e s)) (PyInt 1)) (PyFloat (fsub e s)) = true /\
     geb (max2 (PyFloat (fsub e s)) (PyInt 1)) (PyInt 1) = true /\
     (max2 (PyFloat (fsub e s)) (PyInt 1) = PyFloat (fsub e s) \/
      max2 (PyFloat (fsub e s)) (PyInt 1) = PyInt 1)) /\
    (whitespace_words (lit "hello world") = 2 /\
     whitespace_words (lit " one  two three ") = 3 /\
     whitespace_words (lit "   ") = 0 /\
     truediv (max2 (PyFloat (fsub f60 f1)) (PyInt 1)) (PyFloat f60)
     = Val (PyFloat (S754_finite false 8857079267161975 (-53))) /\
     fst (calculate_speed (lit "hello world") timed_world)
     = Done (PyFloat (S754_finite false 4579931824444572 (-51))) /\
     fst (calculate_speed (lit " one  two three ") timed_world)
     = Done (PyFloat (S754_finite false 6869897736666859 (-51)))).
Proof.
  intros Hs He Hlen.
  destruct (calculate_speed_runs typed s e w Hs He Hlen) as (minutes & wpm & H1 & H2 & H3 & H4).
  exists minutes, wpm.
  split; [exact H1|]. split; [exact H2|]. split; [exact H3|].
  split; [rewrite H4; reflexivity|].
  split; [intros Hfin <-; rewrite fsub_same by assumption; reflexivity|].
  split; [apply word_count_whitespace_words|].
  split; [rewrite <- word_count_whitespace_words; exact H3|].
  split.
  - intros Hfe Hfs. apply max2_upper; [|reflexivity].
    pose proof (fsub_finite_not_nan e s Hfe Hfs) as Hnan.
    destruct (fsub e s); try reflexivity. discriminate Hnan.
  - repeat split; vm_compute; reflexivity.
Qed.

Lemma calculate_speed_formula_witness :
  exists minutes wpm,
    truediv (max2 (PyFloat (fsub f60 f1)) (PyInt 1)) (PyFloat f60) = Val (PyFloat minutes) /\
    is_zero minutes = false /\
    truediv (PyInt (word_count (lit "hello world"))) (PyFloat minutes) = Val wpm /\
    fst (calculate_speed (lit "hello world") timed_world) = Done wpm /\
    word_count (lit "hello world") = whitespace_words (lit "hello world") /\
    wpm = PyFloat (S754_finite false 4579931824444572 (-51)).
Proof.
  destruct (calculate_speed_formula (lit "hello world") f1 f60 timed_world)
    as (minutes & wpm & H1 & H2 & H3 & H4 & _ & H6 & _ & _ & _ & _ & _ & _ & H13 & _);
    [reflexivity | reflexivity | vm_compute; reflexivity |].
  exists minutes, wpm.
  split; [exact H1|]. split; [exact H2|]. split; [exact H3|]. split; [exact H4|].
  split; [exact H6|].
  rewrite H13 in H4. injection H4 as <-. reflexivity.
Defined.

(* ================================================================== *)
(** * [add_score] and [load_scores] *)
(* ================================================================== *)

Lemma add_score_run (n : str) (sc acc : num) (w : World) :
  fst (add_score n sc acc w) = Done tt /\
  high_scores (manager (snd (add_score n sc acc w)))
  = top_ten (high_scores (manager w)) (new_record n sc acc w) /\
  self (snd (add_score n sc acc w)) = self w /\
  ui (snd (add_score n sc acc w)) = ui w.
Proof.
  unfold add_score, save_scores, write_file, try_except, bind, get, modify, print.
  simpl. destruct (write_error (env w)); simpl; [repeat split; reflexivity|].
  destruct (dump_error (env w)); simpl; repeat split; reflexivity.
Qed.


Lemma top_ten_sorted (l : list ScoreRecord) (r : ScoreRecord) :
  Forall has_number l -> has_number r -> sorted_desc (top_ten l r).
Proof.
  intros Hl Hr. unfold sorted_desc, top_ten.
  apply firstn_sorted, sort_desc_sorted.
  apply Forall_app. split; [assumption | constructor; [assumption | constructor]].
Qed.

Lemma ten_records_sorted : sorted_desc ten_records.
Proof. unfold sorted_desc. repeat constructor. Qed.

Lemma ten_records_numbers : Forall has_number ten_records.
Proof. repeat constructor. Qed.




(** C6.  [load_scores] never raises: it returns the stored table when the
    file holds one, and the empty list when the file does not exist, does
    not parse, or cannot be read for any other reason; it changes nothing
    but the terminal output. *)
Theorem load_scores_never_raises (w : World) :
  exists l w',
    load_scores w = (Done l, w') /\
    match file (manager w) with
    | Holds records => l = records
    | NoFile | Unparseable | Unreadable _ => l = []
    end /\
    manager w' = manager w /\ self w' = self w /\ ui w' = ui w.
Proof.
  unfold load_scores, try_except, read_file, bind, get.
  destruct (file (manager w)) as [| |e|records]; simpl.
  - eexists _, _. repeat split; reflexivity.
  - eexists _, _. repeat split; reflexivity.
  - destruct e; eexists _, _; repeat split; reflexivity.
  - eexists _, _. repeat split; reflexivity.
Qed.

(* ================================================================== *)
(** * [start_test] *)
(* ================================================================== *)

(** C7.  When the display holds no text (nothing but white space),
    [start_test] prints "No text loaded for the test." and returns; it has
    no other effect: the attributes of the test, the widgets with their
    pending timers and the score table are what they were, so the phase
    does not change and an Idle session stays Idle. *)
Theorem start_test_without_text (text : str) (w : World) :
  strip (display_content (ui w) ++ [10%N]) = [] ->
  start_test text w
  = (Done tt, with_env (fun e => set_stdout (stdout e ++ [no_text_line]) e) w) /\
  let w' := snd (start_test text w) in
  self w' = self w /\ ui w' = ui w /\ manager w' = manager w /\
  phase_of w' = phase_of w /\
  (phase_of w = Idle -> phase_of w' = Idle) /\
  pending (ui w') = pending (ui w).
Proof.
  intros Hempty.
  assert (Hrun : start_test text w
    = (Done tt, with_env (fun e => set_stdout (stdout e ++ [no_text_line]) e) w)).
  { unfold start_test, bind, display_get, get. rewrite Hempty. reflexivity. }
  split; [exact Hrun|]. rewrite Hrun. simpl.
  repeat split; auto.
Qed.

Lemma start_test_without_text_witness :
  start_test [] idle_world
  = (Done tt, with_env (fun e => set_stdout (stdout e ++ [no_text_line]) e) idle_world).
Proof.
  apply (start_test_without_text [] idle_world). reflexivity.
Defined.

(* ================================================================== *)
(** * [end] *)
(* ================================================================== *)

(** ** Steps that leave the score table alone *)

Lemma keeps_ret {A} (a : A) : keeps_manager (ret a).
Proof. intros w. reflexivity. Qed.

Lemma keeps_raise {A} (e : exn) : keeps_manager (@raise A e).
Proof. intros w. reflexivity. Qed.

Lemma keeps_get {A} (f : World -> A) : keeps_manager (get f).
Proof. intros w. reflexivity. Qed.

Lemma keeps_modify_ui (f : Widgets -> Widgets) : keeps_manager (modify (with_ui f)).
Proof. intros w. reflexivity. Qed.

Lemma keeps_modify_self (f : TypingTest -> TypingTest) :
  keeps_manager (modify (with_self f)).
Proof. intros w. reflexivity. Qed.

Lemma keeps_modify_env (f : Env -> Env) : keeps_manager (modify (with_env f)).
Proof. intros w. reflexivity. Qed.

Lemma keeps_bind {A B} (c : M A) (k : A -> M B) :
  keeps_manager c -> (forall a, keeps_manager (k a)) -> keeps_manager (bind c k).
Proof.
  intros Hc Hk w. unfold bind.
  specialize (Hc w). destruct (c w) as [[a|e|] w1]; simpl in *; try assumption.
  rewrite Hk. assumption.
Qed.

Create HintDb keeps.
#[local] Hint Resolve keeps_ret keeps_raise keeps_get keeps_modify_ui
  keeps_modify_self keeps_modify_env : keeps.

Ltac keeps_steps :=
  repeat lazymatch goal with
         | |- keeps_manager (bind _ _) =>
             apply keeps_bind; [auto with keeps | intros ?]
         end;
  auto with keeps.

Lemma keeps_after_cancel (id : option nat) : keeps_manager (after_cancel id).
Proof. destruct id; unfold after_cancel; auto with keeps. Qed.

Lemma keeps_show_high_scores : keeps_manager show_high_scores.
Proof.
  unfold show_high_scores, get_top_scores.
  apply keeps_bind; [auto with keeps|]. intros top.
  apply keeps_bind; [auto with keeps|]. intros _.
  destruct top; auto with keeps.
Qed.

#[local] Hint Resolve keeps_after_cancel keeps_show_high_scores : keeps.

(** ** The name dialog *)

Lemma name_loop_name (script rest : list (option str)) (n : str) :
  name_loop script = (Done (Some n), rest) -> n <> [].
Proof.
  induction script as [|[a|] t IH]; simpl; try discriminate.
  destruct a as [|c a'] eqn:Ea; simpl.
  - exact IH.
  - intros H. inversion H; subst. discriminate.
Qed.

Lemma name_loop_never_raises (script rest : list (option str)) (e : exn) :
  name_loop script <> (Raised e, rest).
Proof.
  induction script as [|[a|] t IH]; simpl; try discriminate.
  destruct a; simpl; [exact IH | discriminate].
Qed.


(** What the part of [end] from the dialog on does to the score table:
    nothing, or one [add_score] under a name that is not empty. *)
Lemma end_from_dialog_table (speed acc : num) (w : World) :
  high_scores (manager (snd (end_from_dialog speed acc w)))
  = high_scores (manager w) \/
  exists n, n <> [] /\
    high_scores (manager (snd (end_from_dialog speed acc w)))
    = top_ten (high_scores (manager w)) (new_record n speed acc w).
Proof.
  remember (end_from_dialog speed acc w) as R eqn:HR.
  unfold end_from_dialog in HR. unfold bind at 1 in HR. unfold ask_name in HR.
  destruct (name_loop (answers (env w))) as [o rest] eqn:E.
  destruct o as [[n|]|e|]; try (left; subst R; reflexivity).
  right. exists n. split; [eapply name_loop_name; exact E|].
  set (w1 := with_env (set_answers rest) w) in HR.
  unfold bind at 1 in HR.
  destruct (add_score_run n speed acc w1) as (Hd & Hh & _ & _).
  destruct (add_score n speed acc w1) as [o2 w2]. simpl in Hd, Hh. subst o2.
  assert (Hk : keeps_manager
    (input_delete_all ;;
     input_config DISABLED ;;
     modify (with_self (set_remaining_time 60)) ;;
     timer_label_config (Literal (lit "Time: 60")) ;;
     id <- get (fun w => timer_update_id (self w)) ;;
     after_cancel id ;;
     show_high_scores)).
  { unfold input_delete_all, input_config, timer_label_config.
    keeps_steps. }
  subst R.
  cbv beta iota. rewrite Hk. exact Hh.
Qed.

(** With a name entered, the part of [end] from the dialog on records
    it, disables the input, stops the tick and shows the table. *)
Example dialog_records_name :
  let w' := snd (end_from_dialog (PyInt 3) (PyInt 4) (ended_at f60 running_world)) in
  fst (end_from_dialog (PyInt 3) (PyInt 4) (ended_at f60 running_world)) = Done tt /\
  List.map name (high_scores (manager w')) = [lit "Al"] /\
  file (manager w') = Holds (high_scores (manager w')) /\
  input_state (ui w') = DISABLED /\
  List.map action (pending (ui w')) = [EndTestProgrammatically] /\
  score_windows (ui w') = [high_scores (manager w')].
Proof. vm_compute. repeat split; reflexivity. Qed.

(** ** The two ways through [end] *)

(** A first [end] stops at the call of [calculate_speed]. *)
Lemma end_not_ended (w : World) :
  test_ended (self w) = false ->
  end_ w = (Raised TypeError, ended_at (now (env w)) w).
Proof.
  intros H. unfold end_. unfold bind at 1. unfold get at 1. rewrite H.
  reflexivity.
Qed.

Lemma end_already_ended (w : World) :
  test_ended (self w) = true -> end_ w = (Done tt, w).
Proof.
  intros H. unfold end_. unfold bind at 1. unfold get at 1. rewrite H.
  reflexivity.
Qed.

Lemma running_not_ended (w : World) :
  phase_of w = Running -> test_ended (self w) = false.
Proof. unfold phase_of. destruct (test_ended (self w)); [discriminate | reflexivity]. Qed.

Lemma top_ten_In (l : list ScoreRecord) (r x : ScoreRecord) :
  In x (top_ten l r) -> In x l \/ x = r.
Proof.
  unfold top_ten. intros H. apply firstn_In in H.
  apply (Permutation_in _ (sort_desc_perm _)) in H.
  apply in_app_or in H. destruct H as [H|[H|[]]]; auto.
Qed.

Lemma top_ten_length_le (l : list ScoreRecord) (r : ScoreRecord) :
  (List.length (top_ten l r) <= List.length l + 1)%nat.
Proof.
  unfold top_ten. rewrite length_firstn.
  rewrite (Permutation_length (sort_desc_perm _)), length_app.
  change (List.length [r]) with 1%nat. lia.
Qed.

(** C3, on the code.  In the Running phase [end] sets [test_ended] and
    [end_time] and then raises [TypeError] at the call of
    [calculate_speed], which is given two arguments and declares one:
    neither the speed nor the accuracy is computed, the two labels and the
    score table stay as they were. *)
Theorem end_raises_type_error (w : World) :
  phase_of w = Running ->
  end_ w = (Raised TypeError, ended_at (now (env w)) w) /\
  speed_label (ui (snd (end_ w))) = speed_label (ui w) /\
  accuracy_label (ui (snd (end_ w))) = accuracy_label (ui w) /\
  manager (snd (end_ w)) = manager w.
Proof.
  intros Hrun. rewrite (end_not_ended w) by (apply running_not_ended; assumption).
  repeat split; reflexivity.
Qed.

Lemma end_raises_type_error_witness :
  fst (end_ running_world) = Raised TypeError.
Proof.
  destruct (end_raises_type_error running_world) as [Hrun _]; [reflexivity|].
  rewrite Hrun. reflexivity.
Defined.

(** C4, on the code.  For every Running session the second of two calls
    of [end] returns at once and changes nothing, and the session is
    Ended.  But the first call raises [TypeError] at its call of
    [calculate_speed], before the name dialog is opened: the two calls
    together ask for no name and add no record, so the score manager and
    the answers that wait for the dialog are what they were, and the
    table is not one record longer. *)
Theorem end_twice_records_nothing (w : World) :
  phase_of w = Running ->
  let w1 := snd (end_ w) in
  let w2 := snd (end_ w1) in
  fst (end_ w) = Raised TypeError /\
  end_ w1 = (Done tt, w1) /\
  phase_of w1 = Ended /\
  manager w2 = manager w /\
  answers (env w2) = answers (env w) /\
  List.length (high_scores (manager w2)) <> S (List.length (high_scores (manager w))).
Proof.
  intros Hrun w1 w2. subst w2 w1.
  rewrite (end_not_ended w) by (apply running_not_ended; assumption).
  cbn [fst snd].
  rewrite end_already_ended by reflexivity.
  cbn [fst snd].
  split; [reflexivity|]. split; [reflexivity|]. split; [reflexivity|].
  split; [reflexivity|]. split; [reflexivity|].
  cbn. lia.
Qed.

Lemma end_twice_records_nothing_witness :
  phase_of running_world = Running /\
  answers (env running_world) = [Some (lit "Al")] /\
  fst (end_ running_world) = Raised TypeError /\
  end_ (snd (end_ running_world)) = (Done tt, snd (end_ running_world)) /\
  high_scores (manager (snd (end_ (snd (end_ running_world))))) = [] /\
  answers (env (snd (end_ (snd (end_ running_world))))) = [Some (lit "Al")].
Proof.
  split; [reflexivity|]. split; [reflexivity|].
  destruct (end_twice_records_nothing running_world)
    as (Hfirst & Hsecond & _ & Hmanager & Hanswers & _); [reflexivity|].
  split; [exact Hfirst|]. split; [exact Hsecond|].
  split; [rewrite Hmanager; reflexivity | rewrite Hanswers; reflexivity].
Defined.



Lemma name_loop_cancelled (script : list (option str)) :
  fst (name_loop script) = Done None ->
  exists k rest, script = repeat (Some []) k ++ None :: rest.
Proof.
  induction script as [|[a|] t IH]; simpl.
  - discriminate.
  - destruct a as [|c a']; simpl.
    + intros H. destruct (IH H) as (k & rest & ->).
      exists (S k), rest. reflexivity.
    + discriminate.
  - intros _. exists 0%nat, t. reflexivity.
Qed.

(** C10.  Every record in the table after [end], or after the part of
    [end] from the name dialog on, was in the table before or has a name
    that is not empty: the dialog asks again after an empty name, and it
    ends without a name only when the user presses Cancel. *)
Theorem recorded_name_not_empty (speed acc : num) (w : World) (r : ScoreRecord) :
  (In r (high_scores (manager (snd (end_from_dialog speed acc w)))) ->
   In r (high_scores (manager w)) \/ name r <> []) /\
  (In r (high_scores (manager (snd (end_ w)))) ->
   In r (high_scores (manager w)) \/ name r <> []) /\
  (forall script, name_loop (Some [] :: script) = name_loop script) /\
  (forall script, fst (name_loop script) = Done None ->
     exists k rest, script = repeat (Some []) k ++ None :: rest).
Proof.
  split; [|split; [|split]].
  - destruct (end_from_dialog_table speed acc w) as [H|(n & Hn & H)]; rewrite H.
    + auto.
    + intros Hin. apply top_ten_In in Hin. destruct Hin as [Hin| ->]; [auto|].
      right. exact Hn.
  - destruct (test_ended (self w)) eqn:E.
    + rewrite end_already_ended by assumption. auto.
    + rewrite end_not_ended by assumption. auto.
  - reflexivity.
  - apply name_loop_cancelled.
Qed.

Lemma recorded_name_not_empty_witness :
  name (new_record (lit "Al") (PyInt 0) (PyInt 0) (ended_at f60 running_world)) <> [].
Proof.
  destruct (recorded_name_not_empty (PyInt 0) (PyInt 0) (ended_at f60 running_world)
              (new_record (lit "Al") (PyInt 0) (PyInt 0) (ended_at f60 running_world)))
    as [Hdialog _].
  destruct Hdialog as [Hold | Hname].
  - vm_compute. left. reflexivity.
  - vm_compute in Hold. destruct Hold.
  - exact Hname.
Defined.

(* ================================================================== *)
(** * More of [ScoreManager] *)
(* ================================================================== *)

(** ** [save_scores] and the file *)

(** X1.  [save_scores] never raises and never touches the table in
    memory, the session or the window; what it does to the file depends
    on where the write fails.  When [open] raises [e], the file is left
    as it was and the line "Failed to save high scores due to an
    unexpected error: e" is printed.  When [open] goes through and
    [json.dump] raises [e], the same line is printed, but [open] has
    emptied the file by then: the table that was on disk is lost, and the
    next [load_scores] returns the empty list.  When nothing raises, the
    file holds the table and nothing is printed. *)
Theorem save_scores_reports_failure (w : World) :
  let w' := snd (save_scores w) in
  fst (save_scores w) = Done tt /\
  high_scores (manager w') = high_scores (manager w) /\
  self w' = self w /\ ui w' = ui w /\
  match write_error (env w), dump_error (env w) with
  | Some e, _ =>
      file (manager w') = file (manager w) /\
      stdout (env w') = stdout (env w) ++ [save_failed_line e]
  | None, Some e =>
      file (manager w') = Unparseable /\
      fst (load_scores w') = Done [] /\
      stdout (env w') = stdout (env w) ++ [save_failed_line e]
  | None, None =>
      file (manager w') = Holds (high_scores (manager w)) /\
      stdout (env w') = stdout (env w)
  end.
Proof.
  unfold save_scores, write_file, try_except, bind, get, modify, print.
  simpl. destruct (write_error (env w)); simpl; [repeat split; reflexivity|].
  destruct (dump_error (env w)); simpl; repeat split; reflexivity.
Qed.

Lemma save_scores_reports_failure_witness :
  file (manager full_disk_world) = Holds ten_records /\
  fst (save_scores full_disk_world) = Done tt /\
  file (manager (snd (save_scores full_disk_world))) = Unparseable /\
  fst (load_scores (snd (save_scores full_disk_world))) = Done [] /\
  file (manager (snd (save_scores read_only_world))) = file (manager read_only_world).
Proof.
  pose proof (save_scores_reports_failure full_disk_world) as Hdump.
  pose proof (save_scores_reports_failure read_only_world) as Hopen.
  cbv zeta in Hdump, Hopen.
  destruct Hdump as (Hdone & _ & _ & _ & Hdump).
  destruct Hopen as (_ & _ & _ & _ & Hopen).
  change (write_error (env full_disk_world)) with (@None exn) in Hdump.
  change (dump_error (env full_disk_world)) with (Some (OtherException "OSError")) in Hdump.
  change (write_error (env read_only_world))
    with (Some (OtherException "PermissionError")) in Hopen.
  cbv iota beta in Hdump, Hopen.
  destruct Hdump as (Hfile & Hload & _). destruct Hopen as (Hkept & _).
  split; [reflexivity|]. split; [exact Hdone|]. split; [exact Hfile|].
  split; [exact Hload | exact Hkept].
Defined.

Lemma top_ten_not_nil (l : list ScoreRecord) (r : ScoreRecord) : top_ten l r <> [].
Proof.
  intros H. apply (f_equal (@List.length _)) in H.
  unfold top_ten in H. rewrite length_firstn in H.
  rewrite (Permutation_length (sort_desc_perm _)), length_app in H.
  simpl List.length in H. lia.
Qed.

(** What [add_score] leaves on disk and on the terminal. *)
Lemma add_score_disk (n : str) (sc acc : num) (w : World) :
  let w' := snd (add_score n sc acc w) in
  match write_error (env w), dump_error (env w) with
  | Some e, _ =>
      file (manager w') = file (manager w) /\
      stdout (env w') = stdout (env w) ++ [save_failed_line e]
  | None, Some e =>
      file (manager w') = Unparseable /\
      stdout (env w') = stdout (env w) ++ [save_failed_line e]
  | None, None =>
      file (manager w') = Holds (high_scores (manager w')) /\
      stdout (env w') = stdout (env w)
  end.
Proof.
  unfold add_score, save_scores, write_file, try_except, bind, get, modify, print.
  simpl. destruct (write_error (env w)); simpl; [split; reflexivity|].
  destruct (dump_error (env w)); simpl; split; reflexivity.
Qed.

(** A file that does not parse makes [load_scores] start afresh. *)
Lemma load_scores_unparseable (w : World) :
  file (manager w) = Unparseable -> fst (load_scores w) = Done [].
Proof.
  intros H. unfold load_scores, try_except, read_file, bind, get.
  rewrite H. reflexivity.
Qed.

(** X3.  When the write fails with [e], at [open] or in [json.dump],
    [add_score] still returns normally and prints the line of
    [save_scores], and the table in memory still takes the new record
    (for a table and a score without NaN: the old table with the new
    record, sorted, cut to ten).  A failure at [open] leaves the file as
    it was; a failure in [json.dump] leaves a file that no longer parses,
    so the table of the next run is empty although the table in memory
    is not. *)
Theorem add_score_survives_write_failure
    (n : str) (sc acc : num) (e : exn) (w : World) :
  write_error (env w) = Some e \/
  (write_error (env w) = None /\ dump_error (env w) = Some e) ->
  Forall has_number (high_scores (manager w)) ->
  is_number sc = true ->
  let w1 := snd (add_score n sc acc w) in
  fst (add_score n sc acc w) = Done tt /\
  high_scores (manager w1) = top_ten (high_scores (manager w)) (new_record n sc acc w) /\
  high_scores (manager w1) <> [] /\
  stdout (env w1) = stdout (env w) ++ [save_failed_line e] /\
  (write_error (env w) = Some e -> file (manager w1) = file (manager w)) /\
  (write_error (env w) = None ->
   file (manager w1) = Unparseable /\ fst (load_scores w1) = Done []).
Proof.
  intros Hw _ _ w1.
  pose proof (add_score_disk n sc acc w) as Hd. cbv zeta in Hd. fold w1 in Hd.
  destruct (add_score_run n sc acc w) as (Hdone & Htable & _ & _).
  fold w1 in Htable.
  split; [exact Hdone|]. split; [exact Htable|].
  split; [rewrite Htable; apply top_ten_not_nil|].
  destruct Hw as [Hopen | [Hopen Hdump]].
  - rewrite Hopen in Hd. destruct Hd as [Hfile Hout].
    split; [exact Hout|]. split; [intros _; exact Hfile|].
    intros Hnone. rewrite Hnone in Hopen. discriminate.
  - rewrite Hopen, Hdump in Hd. destruct Hd as [Hfile Hout].
    split; [exact Hout|]. split; [intros Hsome; rewrite Hsome in Hopen; discriminate|].
    intros _. split; [exact Hfile | apply load_scores_unparseable; exact Hfile].
Qed.

Lemma add_score_survives_write_failure_witness :
  let w1 := snd (add_score Bob (PyInt 55) (PyInt 92) full_disk_world) in
  file (manager full_disk_world) = Holds ten_records /\
  fst (add_score Bob (PyInt 55) (PyInt 92) full_disk_world) = Done tt /\
  List.map score (high_scores (manager w1))
  = List.map PyInt [100; 90; 80; 70; 60; 55; 50; 40; 30; 20] /\
  stdout (env w1) = [save_failed_line (OtherException "OSError")] /\
  file (manager w1) = Unparseable /\
  fst (load_scores w1) = Done [].
Proof.
  pose proof (add_score_survives_write_failure Bob (PyInt 55) (PyInt 92)
                (OtherException "OSError") full_disk_world
                (or_intror (conj eq_refl eq_refl)) ten_records_numbers eq_refl) as H.
  cbv zeta in H. destruct H as (Hdone & Htable & _ & Hout & _ & Hlost).
  destruct (Hlost eq_refl) as [Hfile Hload].
  split; [reflexivity|]. split; [exact Hdone|].
  split; [rewrite Htable; reflexivity|].
  split; [rewrite Hout; reflexivity|].
  split; [exact Hfile | exact Hload].
Defined.

(** ** Where [add_score] puts the record *)

Lemma geb_not_ltb (x y : num) : geb x y = true -> ltb x y = false.
Proof.
  unfold geb, ltb. destruct (compare x y) as [[]|]; congruence.
Qed.

Lemma ltb_not_geb (x y : num) : ltb x y = true -> geb x y = false.
Proof.
  unfold geb, ltb. destruct (compare x y) as [[]|]; congruence.
Qed.

Lemma not_geb_ltb (x y : num) :
  is_number x = true -> is_number y = true -> geb x y = false -> ltb x y = true.
Proof.
  intros Hx Hy.
  destruct (value_is_number x Hx) as [a Ha], (value_is_number y Hy) as [b Hb].
  unfold ltb, geb, compare. rewrite Ha, Hb.
  destruct (xval_compare a b); congruence.
Qed.

Lemma geb_is_number (x y : num) :
  geb x y = true -> is_number x = true /\ is_number y = true.
Proof.
  unfold geb, compare.
  destruct x as [a|[ | | | ]], y as [b|[ | | | ]]; simpl; try discriminate; auto.
Qed.

(** A record that is not below the head of a sorted table goes in front. *)
Lemma insert_desc_front (h : ScoreRecord) (t : list ScoreRecord) :
  Forall (score_ge h) t -> insert_desc h t = h :: t.
Proof.
  intros Hall. destruct t as [|x t']; [reflexivity|].
  simpl. inversion Hall as [|? ? Hx _]; subst.
  rewrite (geb_not_ltb _ _ Hx). reflexivity.
Qed.

Lemma sort_desc_snoc (l : list ScoreRecord) (r : ScoreRecord) :
  sort_desc (l ++ [r]) = fold_right insert_desc [r] l.
Proof. unfold sort_desc. rewrite fold_right_app. reflexivity. Qed.

(** In a sorted table the new record passes the records below it and
    stops behind the last record that is not below it. *)
Lemma insert_sorted_rank (l : list ScoreRecord) (r : ScoreRecord) :
  sorted_desc l -> Forall has_number l -> has_number r ->
  fold_right insert_desc [r] l
  = at_or_above (score r) l ++ r :: below (score r) l.
Proof.
  unfold sorted_desc, at_or_above, below.
  intros Hs Hl Hr. induction Hs as [|h t Hs IH Hh]; simpl; [reflexivity|].
  inversion Hl as [|? ? Hnh Hnt]; subst. specialize (IH Hnt). rewrite IH.
  destruct (geb (score h) (score r)) eqn:Hge.
  - rewrite (geb_not_ltb _ _ Hge).
    destruct (filter (fun x => geb (score x) (score r)) t) as [|x l1] eqn:El1.
    + simpl. rewrite (geb_not_ltb _ _ Hge). reflexivity.
    + simpl.
      assert (Hin : In x t).
      { assert (In x (x :: l1)) as Hx by (left; reflexivity).
        rewrite <- El1 in Hx. apply filter_In in Hx. tauto. }
      rewrite Forall_forall in Hh. specialize (Hh x Hin).
      rewrite (geb_not_ltb _ _ Hh). reflexivity.
  - assert (Hlt : ltb (score h) (score r) = true) by (apply not_geb_ltb; assumption).
    rewrite Hlt.
    assert (Hbelow : forall x, In x t -> geb (score x) (score r) = false).
    { intros x Hin. destruct (geb (score x) (score r)) eqn:Hx; [|reflexivity].
      rewrite Forall_forall in Hh. specialize (Hh x Hin). unfold score_ge in Hh.
      rewrite (geb_trans _ _ _ Hh Hx) in Hge. discriminate. }
    assert (Hnone : filter (fun x => geb (score x) (score r)) t = []).
    { clear - Hbelow. induction t as [|x t IH]; simpl; [reflexivity|].
      rewrite (Hbelow x) by (left; reflexivity).
      apply IH. intros y Hy. apply Hbelow. right. exact Hy. }
    assert (Hall : filter (fun x => ltb (score x) (score r)) t = t).
    { clear - Hbelow Hnt Hr. induction t as [|x t IH]; simpl; [reflexivity|].
      inversion Hnt; subst.
      rewrite (not_geb_ltb (score x) (score r)); auto.
      - rewrite IH; auto. intros y Hy. apply Hbelow. right. exact Hy.
      - apply Hbelow. left. reflexivity. }
    rewrite Hnone, Hall. simpl. rewrite Hlt.
    rewrite insert_desc_front by exact Hh. reflexivity.
Qed.

Lemma add_score_rank (n : str) (sc acc : num) (w : World) :
  sorted_desc (high_scores (manager w)) ->
  Forall has_number (high_scores (manager w)) ->
  is_number sc = true ->
  high_scores (manager (snd (add_score n sc acc w)))
  = firstn 10 (at_or_above sc (high_scores (manager w))
               ++ new_record n sc acc w :: below sc (high_scores (manager w))).
Proof.
  intros Hs Hl Hsc.
  destruct (add_score_run n sc acc w) as (_ & Htable & _ & _).
  rewrite Htable. unfold top_ten. rewrite sort_desc_snoc.
  rewrite insert_sorted_rank by assumption. reflexivity.
Qed.

(** X4.  The rank of the new record.  When the table is sorted descending
    and neither a score in it nor the new score is a NaN, [add_score]
    leaves the first ten of: the records whose score is [>=] the new
    score, in their old order, then the new record, then the records of
    lower score, in their old order.  So the new record goes behind the
    records it ties with. *)
Theorem add_score_ranks_record (n : str) (sc acc : num) (w : World) :
  sorted_desc (high_scores (manager w)) ->
  Forall has_number (high_scores (manager w)) ->
  is_number sc = true ->
  high_scores (manager (snd (add_score n sc acc w)))
  = firstn 10 (at_or_above sc (high_scores (manager w))
               ++ new_record n sc acc w :: below sc (high_scores (manager w))) /\
  Forall (fun h => geb (score h) sc = true) (at_or_above sc (high_scores (manager w))) /\
  Forall (fun h => ltb (score h) sc = true) (below sc (high_scores (manager w))).
Proof.
  intros Hs Hl Hsc. split; [apply add_score_rank; assumption|].
  unfold at_or_above, below. split; rewrite Forall_forall; intros x Hx;
    apply filter_In in Hx; tauto.
Qed.

Lemma add_score_ranks_record_witness :
  high_scores (manager (snd (add_score Bob (PyInt 50) (PyInt 92) full_world)))
  = firstn 10 (at_or_above (PyInt 50) (high_scores (manager full_world))
               ++ new_record Bob (PyInt 50) (PyInt 92) full_world
                  :: below (PyInt 50) (high_scores (manager full_world))) /\
  Forall (fun h => geb (score h) (PyInt 50) = true)
         (at_or_above (PyInt 50) (high_scores (manager full_world))) /\
  Forall (fun h => ltb (score h) (PyInt 50) = true)
         (below (PyInt 50) (high_scores (manager full_world))).
Proof.
  apply (add_score_ranks_record Bob (PyInt 50) (PyInt 92) full_world);
    [exact ten_records_sorted | exact ten_records_numbers | reflexivity].
Defined.

Lemma sorted_app_ge (l1 l2 : list ScoreRecord) :
  sorted_desc (l1 ++ l2) ->
  forall x y, In x l1 -> In y l2 -> score_ge x y.
Proof.
  unfold sorted_desc. induction l1 as [|h t IH]; simpl; intros Hs x y Hx Hy.
  - destruct Hx.
  - inversion Hs as [|? ? Hs' Hall]; subst. destruct Hx as [<-|Hx].
    + rewrite Forall_forall in Hall. apply Hall. apply in_or_app. right. exact Hy.
    + apply IH; assumption.
Qed.

Lemma filter_all {A} (f : A -> bool) (l : list A) :
  (forall x, In x l -> f x = true) -> filter f l = l.
Proof.
  induction l as [|x t IH]; simpl; intros H; [reflexivity|].
  rewrite (H x) by (left; reflexivity). rewrite IH; [reflexivity|].
  intros y Hy. apply H. right. exact Hy.
Qed.

Lemma filter_none {A} (f : A -> bool) (l : list A) :
  (forall x, In x l -> f x = false) -> filter f l = [].
Proof.
  induction l as [|x t IH]; simpl; intros H; [reflexivity|].
  rewrite (H x) by (left; reflexivity). apply IH.
  intros y Hy. apply H. right. exact Hy.
Qed.

(** Each record of a table of numbers ranks at or above a number, or
    below it. *)
Lemma rank_split_length (sc : num) (l : list ScoreRecord) :
  Forall has_number l -> is_number sc = true ->
  (List.length (at_or_above sc l) + List.length (below sc l) = List.length l)%nat.
Proof.
  unfold at_or_above, below. intros Hl Hsc.
  induction Hl as [|x t Hx Ht IH]; simpl; [reflexivity|].
  destruct (geb (score x) sc) eqn:Hge.
  - rewrite (geb_not_ltb _ _ Hge). simpl. lia.
  - rewrite (not_geb_ltb _ _ Hx Hsc Hge). simpl. lia.
Qed.

(** Every record of a sorted table that ends in [tenth] is at or above
    what [tenth] is at or above. *)
Lemma above_tenth (top : list ScoreRecord) (tenth : ScoreRecord) (sc : num) :
  sorted_desc (top ++ [tenth]) ->
  geb (score tenth) sc = true ->
  forall x, In x (top ++ [tenth]) -> geb (score x) sc = true.
Proof.
  intros Hs Hge x Hx. apply in_app_or in Hx. destruct Hx as [Hx|[<-|[]]].
  - eapply geb_trans; [|exact Hge].
    apply (sorted_app_ge top [tenth] Hs x tenth Hx). left. reflexivity.
  - exact Hge.
Qed.

(** X5.  A full table turns the score away.  When the table holds ten
    records, sorted descending, and the score of the tenth is [>=] the new
    score, [add_score] leaves the table as it was: the record cut off is
    the new one. *)
Theorem add_score_drops_low_score
    (n : str) (sc acc : num) (top : list ScoreRecord) (tenth : ScoreRecord) (w : World) :
  high_scores (manager w) = top ++ [tenth] ->
  List.length top = 9%nat ->
  sorted_desc (top ++ [tenth]) ->
  geb (score tenth) sc = true ->
  high_scores (manager (snd (add_score n sc acc w))) = top ++ [tenth].
Proof.
  intros Htable Hlen Hs Hge.
  pose proof (above_tenth top tenth sc Hs Hge) as Hall.
  assert (Hten : List.length (top ++ [tenth]) = 10%nat)
    by (rewrite length_app, Hlen; reflexivity).
  rewrite add_score_rank.
  - rewrite Htable. unfold at_or_above. rewrite filter_all by exact Hall.
    rewrite firstn_app, Hten.
    rewrite firstn_all2 by (rewrite Hten; apply le_n).
    simpl. apply app_nil_r.
  - rewrite Htable. exact Hs.
  - rewrite Htable. rewrite Forall_forall. intros x Hx.
    apply (geb_is_number _ _ (Hall x Hx)).
  - apply (geb_is_number _ _ Hge).
Qed.

Lemma add_score_drops_low_score_witness :
  high_scores (manager (snd (add_score Bob (PyInt 10) (PyInt 92) full_world)))
  = firstn 9 ten_records ++ [nth 9 ten_records (new_record Bob (PyInt 10) (PyInt 92) full_world)].
Proof.
  apply (add_score_drops_low_score Bob (PyInt 10) (PyInt 92)
           (firstn 9 ten_records)
           (nth 9 ten_records (new_record Bob (PyInt 10) (PyInt 92) full_world))
           full_world);
    [reflexivity | reflexivity | exact ten_records_sorted | reflexivity].
Defined.

(** X6.  A better score takes the place of the tenth.  When the table
    holds ten records, sorted descending, without NaN, and the new score
    is greater than the tenth's, [add_score] drops the tenth record and
    nothing else: it leaves the first nine with the new record at its
    rank among them. *)
Theorem add_score_replaces_tenth
    (n : str) (sc acc : num) (top : list ScoreRecord) (tenth : ScoreRecord) (w : World) :
  high_scores (manager w) = top ++ [tenth] ->
  List.length top = 9%nat ->
  sorted_desc (top ++ [tenth]) ->
  Forall has_number top ->
  is_number sc = true ->
  ltb (score tenth) sc = true ->
  high_scores (manager (snd (add_score n sc acc w)))
  = at_or_above sc top ++ new_record n sc acc w :: below sc top.
Proof.
  intros Htable Hlen Hs Htop Hsc Hlt.
  assert (Hnum : is_number (score tenth) = true).
  { unfold ltb, compare in Hlt.
    destruct (score tenth) as [z|[ | | | ]]; simpl in *; try discriminate; reflexivity. }
  rewrite add_score_rank; rewrite ?Htable; auto.
  - assert (Ha : at_or_above sc (top ++ [tenth]) = at_or_above sc top).
    { unfold at_or_above. rewrite filter_app. simpl.
      rewrite (ltb_not_geb _ _ Hlt). apply app_nil_r. }
    assert (Hb : below sc (top ++ [tenth]) = below sc top ++ [tenth]).
    { unfold below. rewrite filter_app. simpl. rewrite Hlt. reflexivity. }
    rewrite Ha, Hb. unfold at_or_above, below.
    pose proof (rank_split_length sc top Htop Hsc) as Hsplit.
    unfold at_or_above, below in Hsplit.
    set (above := filter (fun h => geb (score h) sc) top) in *.
    set (under := filter (fun h => ltb (score h) sc) top) in *.
    replace (above ++ new_record n sc acc w :: under ++ [tenth])
      with ((above ++ new_record n sc acc w :: under) ++ [tenth])
      by (rewrite <- app_assoc; reflexivity).
    assert (Hten : List.length (above ++ new_record n sc acc w :: under) = 10%nat).
    { rewrite length_app. simpl. lia. }
    rewrite firstn_app, Hten.
    change (10 - 10)%nat with 0%nat. rewrite firstn_O.
    rewrite firstn_all2 by (rewrite Hten; apply le_n).
    apply app_nil_r.
  - apply Forall_app. split; [exact Htop | constructor; [exact Hnum | constructor]].
Qed.

Lemma add_score_replaces_tenth_witness :
  high_scores (manager (snd (add_score Bob (PyInt 55) (PyInt 92) full_world)))
  = at_or_above (PyInt 55) (firstn 9 ten_records)
    ++ new_record Bob (PyInt 55) (PyInt 92) full_world
       :: below (PyInt 55) (firstn 9 ten_records).
Proof.
  apply (add_score_replaces_tenth Bob (PyInt 55) (PyInt 92)
           (firstn 9 ten_records)
           (nth 9 ten_records (new_record Bob (PyInt 55) (PyInt 92) full_world))
           full_world);
    [reflexivity | reflexivity | exact ten_records_sorted
     | repeat constructor | reflexivity | reflexivity].
Defined.

(** X7.  Below ten records nothing is lost.  When the table holds fewer
    than ten records and no score in it or in the new record is a NaN,
    whether or not the table is in order, the table after [add_score] is
    a rearrangement of the old records and the new one, it is one record
    longer, and it is sorted descending. *)
Theorem add_score_keeps_all_below_ten (n : str) (sc acc : num) (w : World) :
  (List.length (high_scores (manager w)) < 10)%nat ->
  Forall has_number (high_scores (manager w)) ->
  is_number sc = true ->
  Permutation (high_scores (manager (snd (add_score n sc acc w))))
              (new_record n sc acc w :: high_scores (manager w)) /\
  List.length (high_scores (manager (snd (add_score n sc acc w))))
  = S (List.length (high_scores (manager w))) /\
  sorted_desc (high_scores (manager (snd (add_score n sc acc w)))).
Proof.
  intros Hlen Hnum Hsc.
  destruct (add_score_run n sc acc w) as (_ & Htable & _ & _).
  rewrite Htable.
  split; [|split; [|apply top_ten_sorted; assumption]]; unfold top_ten.
  - pose proof (sort_desc_perm (high_scores (manager w) ++ [new_record n sc acc w])) as Hp.
    rewrite firstn_all2
      by (rewrite (Permutation_length Hp), length_app; simpl List.length; lia).
    eapply perm_trans; [exact Hp|].
    apply Permutation_sym, Permutation_cons_append.
  - pose proof (sort_desc_perm (high_scores (manager w) ++ [new_record n sc acc w])) as Hp.
    rewrite firstn_all2
      by (rewrite (Permutation_length Hp), length_app; simpl List.length; lia).
    rewrite (Permutation_length Hp), length_app. simpl List.length. lia.
Qed.

Lemma add_score_keeps_all_below_ten_witness :
  let table := high_scores (manager (snd (add_score Bob (PyInt 80) (PyInt 92) unsorted_world))) in
  List.map score (high_scores (manager unsorted_world)) = List.map PyInt [40; 90; 70] /\
  List.map score table = List.map PyInt [90; 80; 70; 40] /\
  Permutation table
    (new_record Bob (PyInt 80) (PyInt 92) unsorted_world
     :: high_scores (manager unsorted_world)) /\
  sorted_desc table.
Proof.
  split; [reflexivity|]. split; [reflexivity|].
  destruct (add_score_keeps_all_below_ten Bob (PyInt 80) (PyInt 92) unsorted_world)
    as (Hperm & _ & Hsorted);
    [simpl; lia | repeat constructor | reflexivity |].
  split; [exact Hperm | exact Hsorted].
Defined.

(* ================================================================== *)
(** * More of [TypingTest]: starting and counting down *)
(* ================================================================== *)

Lemma update_timer_tick (w : World) :
  0 < remaining_time (self w) ->
  update_timer w = (Done tt, ticked w).
Proof.
  intros Hr. unfold update_timer. unfold bind at 1. unfold get at 1.
  destruct (Z.leb_spec (remaining_time (self w)) 0); [lia|].
  reflexivity.
Qed.

Lemma update_timer_zero (w : World) :
  remaining_time (self w) <= 0 ->
  update_timer w = end_ (time_up w).
Proof.
  intros Hr. unfold update_timer. unfold bind at 1. unfold get at 1.
  destruct (Z.leb_spec (remaining_time (self w)) 0); [|lia].
  reflexivity.
Qed.

Lemma start_test_no_text (text : str) (w : World) :
  strip (display_content (ui w) ++ [10%N]) = [] ->
  start_test text w
  = (Done tt, with_env (fun e => set_stdout (stdout e ++ [no_text_line]) e) w).
Proof.
  intros Hempty. unfold start_test, bind, display_get, get. rewrite Hempty.
  reflexivity.
Qed.

Lemma start_test_fields (text t : str) (w : World) :
  strip (display_content (ui w) ++ [10%N]) = t ->
  t <> [] ->
  let w' := snd (start_test text w) in
  let id := next_timer_id (ui w) in
  fst (start_test text w) = Done tt /\
  phase_of w' = Running /\
  start_time (self w') = Some (now (env w)) /\
  remaining_time (self w') = 59 /\
  timer_update_id (self w') = Some (S id) /\
  display_content (ui w') = t /\
  display_state (ui w') = DISABLED /\
  input_content (ui w')
  = match input_state (ui w) with
    | NORMAL => []
    | DISABLED => input_content (ui w)
    end /\
  input_state (ui w') = NORMAL /\
  input_focus (ui w') = true /\
  return_bound (ui w') = true /\
  timer_label (ui w') = TimeText 60 /\
  pending (ui w') = pending (ui w) ++ [deadline_timer id; tick_timer (S id)] /\
  manager w' = manager w /\
  env w' = env w.
Proof.
  intros Ht Hne w' id. subst w' id.
  unfold start_test, bind, display_get, get. rewrite Ht.
  destruct t as [|c t']; [congruence|]. simpl truthy. simpl negb. cbv iota.
  unfold modify, display_config, display_delete_all, display_insert_end,
    input_delete_all, input_config, input_focus_set, input_bind_return, time,
    after, update_timer, timer_label_config, bind, get, modify, phase_of.
  simpl.
  destruct (input_state (ui w)); simpl;
    rewrite <- ?app_assoc; repeat split; reflexivity.
Qed.

(** X8.  With a text on display that is not blank, [start_test] returns
    normally and leaves a Running session: [start_time] is the reading of
    the clock, the counter is 59 (set to 60, then lowered by the first
    [update_timer]) while the label shows "Time: 60", the display holds
    the stripped text and is disabled, the input field is emptied (if it
    was enabled: [delete] does nothing on a disabled field), enabled,
    focused and bound to Return, and two timers are armed, the deadline of
    60000 ms and a tick of 1000 ms whose id is kept in [timer_update_id].
    The score table, the file and the terminal are untouched.  All this
    holds whatever the [text] argument is. *)
Theorem start_test_arms_session (text t : str) (w : World) :
  strip (display_content (ui w) ++ [10%N]) = t ->
  t <> [] ->
  let w' := snd (start_test text w) in
  let id := next_timer_id (ui w) in
  fst (start_test text w) = Done tt /\
  phase_of w' = Running /\
  start_time (self w') = Some (now (env w)) /\
  remaining_time (self w') = 59 /\
  timer_update_id (self w') = Some (S id) /\
  display_content (ui w') = t /\
  display_state (ui w') = DISABLED /\
  input_content (ui w')
  = match input_state (ui w) with
    | NORMAL => []
    | DISABLED => input_content (ui w)
    end /\
  input_state (ui w') = NORMAL /\
  input_focus (ui w') = true /\
  return_bound (ui w') = true /\
  timer_label (ui w') = TimeText 60 /\
  pending (ui w') = pending (ui w) ++ [deadline_timer id; tick_timer (S id)] /\
  manager w' = manager w /\
  env w' = env w.
Proof. apply start_test_fields. Qed.

Lemma start_test_arms_session_witness :
  fst (start_test [] loaded_world) = Done tt /\
  phase_of (snd (start_test [] loaded_world)) = Running /\
  remaining_time (self (snd (start_test [] loaded_world))) = 59 /\
  display_content (ui (snd (start_test [] loaded_world))) = lit "hello there".
Proof.
  pose proof (start_test_arms_session [] (lit "hello there") loaded_world
                eq_refl ltac:(discriminate)) as H.
  cbv zeta in H. destruct H as (H1 & H2 & _ & H4 & _ & H6 & _).
  repeat split; assumption.
Defined.

Lemma ticks_step (k : nat) (w : World) :
  0 < remaining_time (self w) ->
  ticks (S k) w = ticks k (ticked w).
Proof.
  intros Hr. simpl. unfold bind. rewrite update_timer_tick by exact Hr. reflexivity.
Qed.

(** What [k] ticks do while the counter has not run out. *)
Lemma ticks_run (k : nat) :
  forall w, Z.of_nat k <= remaining_time (self w) ->
  fst (ticks k w) = Done tt /\
  remaining_time (self (snd (ticks k w))) = remaining_time (self w) - Z.of_nat k /\
  test_ended (self (snd (ticks k w))) = test_ended (self w) /\
  start_time (self (snd (ticks k w))) = start_time (self w) /\
  pending (ui (snd (ticks k w)))
  = pending (ui w)
    ++ List.map (fun i => tick_timer (next_timer_id (ui w) + i)) (seq 0 k) /\
  next_timer_id (ui (snd (ticks k w))) = (next_timer_id (ui w) + k)%nat /\
  ((0 < k)%nat ->
   timer_label (ui (snd (ticks k w)))
   = TimeText (remaining_time (self w) - Z.of_nat k + 1) /\
   timer_update_id (self (snd (ticks k w)))
   = Some (next_timer_id (ui w) + k - 1)%nat) /\
  input_content (ui (snd (ticks k w))) = input_content (ui w) /\
  manager (snd (ticks k w)) = manager w /\
  env (snd (ticks k w)) = env w.
Proof.
  induction k as [|k IH]; intros w Hk.
  - simpl. rewrite app_nil_r, Nat.add_0_r, Z.sub_0_r.
    repeat split; try reflexivity; lia.
  - rewrite ticks_step by lia.
    destruct (IH (ticked w)) as (H1 & H2 & H3 & H4 & H5 & H6 & H7 & H8 & H9 & H10).
    { change (remaining_time (self (ticked w))) with (remaining_time (self w) - 1). lia. }
    change (remaining_time (self (ticked w))) with (remaining_time (self w) - 1) in *.
    change (pending (ui (ticked w)))
      with (pending (ui w) ++ [tick_timer (next_timer_id (ui w))]) in *.
    change (next_timer_id (ui (ticked w))) with (S (next_timer_id (ui w))) in *.
    rewrite Nat2Z.inj_succ.
    split; [exact H1|]. split; [rewrite H2; lia|]. split; [rewrite H3; reflexivity|].
    split; [rewrite H4; reflexivity|]. split.
    { rewrite H5, <- app_assoc. f_equal.
      change (seq 0 (S k)) with (0%nat :: seq 1 k).
      rewrite <- seq_shift. simpl. rewrite map_map, Nat.add_0_r. f_equal.
      apply map_ext. intros i. f_equal. lia. }
    split; [rewrite H6; lia|]. split.
    { intros _. destruct k as [|k'].
      - split.
        + change (timer_label (ui (snd (ticks 0 (ticked w)))))
            with (TimeText (remaining_time (self w))).
          f_equal. simpl. lia.
        + change (timer_update_id (self (snd (ticks 0 (ticked w)))))
            with (Some (next_timer_id (ui w))).
          f_equal. lia.
      - destruct H7 as [H7a H7b]; [lia|]. split.
        + rewrite H7a. f_equal. lia.
        + rewrite H7b. f_equal. lia. }
    split; [rewrite H8; reflexivity|]. split; [rewrite H9; reflexivity|].
    rewrite H10. reflexivity.
Qed.

(** X9.  While the counter is at least [k], [k] ticks in a row all
    return normally: the counter goes down by [k], each tick arms one more
    timer of 1000 ms, with the next free id, and cancels none, the session
    does not end and the score table is untouched; from the first tick on
    the label shows the counter plus one, and [timer_update_id] is the id
    of the timer armed last. *)
Theorem countdown_ticks (k : nat) (w : World) :
  Z.of_nat k <= remaining_time (self w) ->
  fst (ticks k w) = Done tt /\
  remaining_time (self (snd (ticks k w))) = remaining_time (self w) - Z.of_nat k /\
  test_ended (self (snd (ticks k w))) = test_ended (self w) /\
  pending (ui (snd (ticks k w)))
  = pending (ui w)
    ++ List.map (fun i => tick_timer (next_timer_id (ui w) + i)) (seq 0 k) /\
  ((0 < k)%nat ->
   timer_label (ui (snd (ticks k w)))
   = TimeText (remaining_time (self w) - Z.of_nat k + 1) /\
   timer_update_id (self (snd (ticks k w)))
   = Some (next_timer_id (ui w) + k - 1)%nat) /\
  manager (snd (ticks k w)) = manager w.
Proof.
  intros Hk.
  destruct (ticks_run k w Hk) as (H1 & H2 & H3 & _ & H5 & _ & H7 & _ & H9 & _).
  repeat split; try assumption; apply H7; assumption.
Qed.

Lemma countdown_ticks_witness :
  fst (ticks 3 running_world) = Done tt /\
  remaining_time (self (snd (ticks 3 running_world))) = 56 /\
  timer_label (ui (snd (ticks 3 running_world))) = TimeText 57.
Proof.
  destruct (countdown_ticks 3 running_world) as (H1 & H2 & _ & _ & H5 & _);
    [vm_compute; discriminate |].
  destruct H5 as [H5 _]; [lia|].
  split; [exact H1 | split; [rewrite H2; reflexivity | rewrite H5; reflexivity]].
Defined.

(** X10.  Once the counter is at 0 or below, [update_timer] arms no
    timer and leaves the counter alone: it shows "Time's up!" and calls
    [end], which returns at once in a session that has ended, and
    otherwise marks the session ended, stores [end_time] and raises
    [TypeError] at its call of [calculate_speed]. *)
Theorem update_timer_time_up (w : World) :
  remaining_time (self w) <= 0 ->
  (test_ended (self w) = true -> update_timer w = (Done tt, time_up w)) /\
  (test_ended (self w) = false ->
   update_timer w = (Raised TypeError, ended_at (now (env w)) (time_up w))) /\
  pending (ui (snd (update_timer w))) = pending (ui w) /\
  remaining_time (self (snd (update_timer w))) = remaining_time (self w) /\
  timer_label (ui (snd (update_timer w))) = Literal (lit "Time's up!").
Proof.
  intros Hr. rewrite update_timer_zero by exact Hr.
  destruct (test_ended (self w)) eqn:E.
  - rewrite end_already_ended by exact E.
    repeat split; try reflexivity. discriminate.
  - rewrite end_not_ended by exact E.
    repeat split; try reflexivity. discriminate.
Qed.

Lemma update_timer_time_up_witness :
  update_timer (with_self (set_remaining_time 0) running_world)
  = (Raised TypeError,
     ended_at f60 (time_up (with_self (set_remaining_time 0) running_world))).
Proof.
  destruct (update_timer_time_up (with_self (set_remaining_time 0) running_world))
    as (_ & H & _); [simpl; lia|].
  apply H. reflexivity.
Defined.

(** The ticks do not read the clock. *)
Lemma ticks_any_clock (k : nat) :
  forall (c : float) (w : World),
    Z.of_nat k <= remaining_time (self w) ->
    ticks k (at_time c w) = (Done tt, at_time c (snd (ticks k w))).
Proof.
  induction k as [|k IH]; intros c w Hk.
  - reflexivity.
  - rewrite (ticks_step k (at_time c w))
      by (change (remaining_time (self (at_time c w))) with (remaining_time (self w)); lia).
    rewrite (ticks_step k w) by lia.
    change (ticked (at_time c w)) with (at_time c (ticked w)).
    apply IH.
    change (remaining_time (self (ticked w))) with (remaining_time (self w) - 1). lia.
Qed.

(** The deadline and a tick that finds the counter at 0, in a session
    that has not ended, when the clock reads [c]: the one that runs first
    raises from [end], the other then returns, and the two orders end in
    the same state. *)
Lemma last_second (c : float) (w : World) :
  remaining_time (self w) <= 0 ->
  test_ended (self w) = false ->
  let w3 := at_time c w in
  end_test_programmatically w3 = (Raised TypeError, ended_at c w3) /\
  update_timer (ended_at c w3) = (Done tt, time_up (ended_at c w3)) /\
  update_timer w3 = (Raised TypeError, ended_at c (time_up w3)) /\
  end_test_programmatically (ended_at c (time_up w3))
  = (Done tt, ended_at c (time_up w3)) /\
  time_up (ended_at c w3) = ended_at c (time_up w3).
Proof.
  intros Hr Hended w3. unfold end_test_programmatically.
  split; [apply (end_not_ended w3); exact Hended|].
  split.
  { rewrite (update_timer_zero (ended_at c w3)) by exact Hr.
    apply end_already_ended. reflexivity. }
  split.
  { rewrite (update_timer_zero w3) by exact Hr.
    apply (end_not_ended (time_up w3)). exact Hended. }
  split; [apply end_already_ended; reflexivity | reflexivity].
Qed.

(** X11.  The last second of a test that nothing ends before.  After
    [start_test] on a text that is not blank and 59 ticks, which do not
    read the clock, the counter is at 0 under the label "Time: 1",
    the session has not ended, and 61 timers have been armed and none
    cancelled; two of them are still to fire, the deadline, armed first,
    and the 60th tick.  When the clock reads [clock]: if the deadline
    runs first it ends the test, raising [TypeError] from [end], and the
    tick then shows "Time's up!" and returns normally; if the tick runs
    first it shows "Time's up!" and raises [TypeError] from [end], and
    the deadline then returns at once.  Both orders leave the same state,
    ended at [clock]. *)
Theorem full_countdown (text t : str) (clock : float) (w : World) :
  strip (display_content (ui w) ++ [10%N]) = t ->
  t <> [] ->
  let w1 := snd (start_test text w) in
  let w2 := snd (ticks 59 w1) in
  let w3 := at_time clock w2 in
  fst (ticks 59 w1) = Done tt /\
  (forall c, ticks 59 (at_time c w1) = (Done tt, at_time c w2)) /\
  remaining_time (self w2) = 0 /\
  timer_label (ui w2) = TimeText 1 /\
  test_ended (self w2) = false /\
  List.length (pending (ui w2)) = (List.length (pending (ui w)) + 61)%nat /\
  end_test_programmatically w3 = (Raised TypeError, ended_at clock w3) /\
  update_timer (ended_at clock w3) = (Done tt, time_up (ended_at clock w3)) /\
  update_timer w3 = (Raised TypeError, ended_at clock (time_up w3)) /\
  end_test_programmatically (ended_at clock (time_up w3))
  = (Done tt, ended_at clock (time_up w3)) /\
  time_up (ended_at clock w3) = ended_at clock (time_up w3).
Proof.
  intros Ht Hne w1 w2 w3.
  destruct (start_test_fields text t w Ht Hne)
    as (_ & Hphase & _ & Hrem & _ & _ & _ & _ & _ & _ & _ & _ & Hpend & _ & _).
  fold w1 in Hphase, Hrem, Hpend.
  assert (Hk : Z.of_nat 59 <= remaining_time (self w1)) by (rewrite Hrem; simpl; lia).
  destruct (ticks_run 59 w1 Hk) as (H1 & H2 & H3 & _ & H5 & _ & H7 & _).
  fold w2 in H2, H3, H5, H7.
  assert (Hended : test_ended (self w1) = false).
  { unfold phase_of in Hphase. destruct (test_ended (self w1)); [discriminate|reflexivity]. }
  split; [exact H1|].
  split; [intros c; apply ticks_any_clock; exact Hk|].
  split; [rewrite H2, Hrem; reflexivity|].
  split; [destruct H7 as [H7 _]; [lia|]; rewrite H7, Hrem; reflexivity|].
  split; [rewrite H3; exact Hended|].
  split.
  - rewrite H5, Hpend, !length_app, length_map, length_seq.
    simpl List.length. lia.
  - apply (last_second clock w2).
    + rewrite H2, Hrem. simpl. lia.
    + rewrite H3. exact Hended.
Qed.

Lemma full_countdown_witness :
  let w1 := snd (start_test [] loaded_world) in
  let w2 := snd (ticks 59 w1) in
  let w3 := at_time f100 w2 in
  remaining_time (self w2) = 0 /\
  timer_label (ui w2) = TimeText 1 /\
  List.length (pending (ui w2)) = 61%nat /\
  end_test_programmatically w3 = (Raised TypeError, ended_at f100 w3) /\
  update_timer (ended_at f100 w3) = (Done tt, time_up (ended_at f100 w3)) /\
  update_timer w3 = (Raised TypeError, ended_at f100 (time_up w3)) /\
  end_time (self (time_up (ended_at f100 w3))) = Some f100 /\
  start_time (self (time_up (ended_at f100 w3))) = Some f60.
Proof.
  pose proof (full_countdown [] (lit "hello there") f100 loaded_world
                eq_refl ltac:(discriminate)) as H.
  cbv zeta in H.
  destruct H as (_ & _ & H3 & H4 & _ & H6 & H7 & H8 & H9 & _).
  split; [exact H3|]. split; [exact H4|]. split; [exact H6|].
  split; [exact H7|]. split; [exact H8|]. split; [exact H9|].
  split; reflexivity.
Defined.

(* ================================================================== *)
(** * More of [TypingTest]: the end of a test *)
(* ================================================================== *)

(** X12.  [show_high_scores] opens its window and lists the table; with
    an empty table it then raises [UnboundLocalError], since the OK button
    is placed on [row + 1] and only the loop over the scores binds [row];
    with a table that is not empty it returns normally. *)
Theorem show_high_scores_needs_a_score (w : World) :
  (high_scores (manager w) = [] ->
   show_high_scores w
   = (Raised UnboundLocalError,
      with_ui (fun u => set_score_windows (score_windows u ++ [[]]) u) w)) /\
  (high_scores (manager w) <> [] ->
   show_high_scores w
   = (Done tt,
      with_ui (fun u => set_score_windows
                          (score_windows u ++ [high_scores (manager w)]) u) w)).
Proof.
  unfold show_high_scores, get_top_scores, bind, get, modify.
  destruct (high_scores (manager w)) as [|r l] eqn:E; simpl; split;
    try congruence; intros _; reflexivity.
Qed.

Lemma show_high_scores_needs_a_score_witness :
  fst (show_high_scores idle_world) = Raised UnboundLocalError /\
  fst (show_high_scores full_world) = Done tt.
Proof.
  destruct (show_high_scores_needs_a_score idle_world) as [Hempty _].
  destruct (show_high_scores_needs_a_score full_world) as [_ Hfull].
  rewrite Hempty by reflexivity. rewrite Hfull by discriminate.
  split; reflexivity.
Defined.



(** [end] from the dialog on, once a name is entered. *)
Lemma end_from_dialog_named
    (speed acc : num) (n : str) (rest : list (option str)) (w : World) :
  name_loop (answers (env w)) = (Done (Some n), rest) ->
  let w1 := input_closed (snd (add_score n speed acc (with_env (set_answers rest) w))) in
  end_from_dialog speed acc w
  = match timer_update_id (self w) with
    | None => (Raised ValueError, w1)
    | Some i => (Done tt, table_shown i w1)
    end.
Proof.
  intros Hloop w1. subst w1.
  unfold end_from_dialog. unfold bind at 1. unfold ask_name. rewrite Hloop.
  set (w0 := with_env (set_answers rest) w).
  unfold bind at 1.
  destruct (add_score_run n speed acc w0) as (Hd & Hh & Hself & _).
  destruct (add_score n speed acc w0) as [o2 w2]. simpl in Hd, Hh, Hself. subst o2.
  unfold input_delete_all, input_config, timer_label_config, after_cancel,
    show_high_scores, get_top_scores, bind, get, modify.
  simpl. rewrite Hself. simpl.
  destruct (timer_update_id (self w)) as [i|]; [|reflexivity].
  simpl.
  destruct (high_scores (manager w2)) as [|r l] eqn:E.
  - exfalso. symmetry in Hh. exact (top_ten_not_nil _ _ Hh).
  - unfold table_shown, input_closed. simpl. rewrite E. reflexivity.
Qed.



(** X14.  The part of [end] from the name dialog on, with a table of
    records and a speed that hold no NaN, raises nothing but
    [ValueError], and that only when [timer_update_id] is still [None],
    which [after_cancel] refuses; a name that is not empty has been
    entered and its score is in the table by then, the old table with
    the new record, sorted and cut to ten.  [show_high_scores] does not
    raise there: the table it is given is not empty. *)
Theorem end_from_dialog_raises_only_without_timer
    (speed acc : num) (e : exn) (w : World) :
  Forall has_number (high_scores (manager w)) ->
  is_number speed = true ->
  fst (end_from_dialog speed acc w) = Raised e ->
  e = ValueError /\
  timer_update_id (self w) = None /\
  exists n, n <> [] /\
    high_scores (manager (snd (end_from_dialog speed acc w)))
    = top_ten (high_scores (manager w)) (new_record n speed acc w) /\
    high_scores (manager (snd (end_from_dialog speed acc w))) <> [].
Proof.
  intros _ _ Hraised.
  destruct (name_loop (answers (env w))) as [o rest] eqn:Hloop.
  destruct o as [[n|]|x|].
  - rewrite (end_from_dialog_named speed acc n rest w Hloop) in *.
    destruct (timer_update_id (self w)) as [i|]; [discriminate|].
    cbn [fst snd] in *. inversion Hraised; subst.
    split; [reflexivity|]. split; [reflexivity|].
    exists n. split; [eapply name_loop_name; exact Hloop|].
    destruct (add_score_run n speed acc (with_env (set_answers rest) w)) as (_ & Hh & _).
    assert (Heq : high_scores (manager (input_closed
                    (snd (add_score n speed acc (with_env (set_answers rest) w)))))
                  = top_ten (high_scores (manager w)) (new_record n speed acc w))
      by (unfold input_closed; simpl; exact Hh).
    split; [exact Heq | rewrite Heq; apply top_ten_not_nil].
  - exfalso. unfold end_from_dialog, bind, ask_name in Hraised.
    rewrite Hloop in Hraised. discriminate.
  - exfalso. exact (name_loop_never_raises _ _ _ Hloop).
  - exfalso. unfold end_from_dialog, bind, ask_name in Hraised.
    rewrite Hloop in Hraised. discriminate.
Qed.

Lemma end_from_dialog_raises_only_without_timer_witness :
  let w := with_manager (set_high_scores ten_records) untimed_world in
  fst (end_from_dialog (PyInt 55) (PyInt 95) w) = Raised ValueError /\
  timer_update_id (self w) = None /\
  exists n, n <> [] /\
    high_scores (manager (snd (end_from_dialog (PyInt 55) (PyInt 95) w)))
    = top_ten (high_scores (manager w)) (new_record n (PyInt 55) (PyInt 95) w) /\
    high_scores (manager (snd (end_from_dialog (PyInt 55) (PyInt 95) w))) <> [].
Proof.
  intros w. split; [reflexivity|].
  apply (end_from_dialog_raises_only_without_timer (PyInt 55) (PyInt 95) ValueError w);
    [exact ten_records_numbers | reflexivity | reflexivity].
Defined.

(** X15.  [0 <= remaining_time <= 60] is an invariant of the session: it
    is kept by [start_test], by [update_timer], by [end], and by the part
    of [end] from the name dialog on, for every speed and accuracy. *)
Theorem counter_stays_in_range (text : str) (speed acc : num) (w : World) :
  counter_in_range w ->
  counter_in_range (snd (start_test text w)) /\
  counter_in_range (snd (update_timer w)) /\
  counter_in_range (snd (end_ w)) /\
  counter_in_range (snd (end_from_dialog speed acc w)).
Proof.
  unfold counter_in_range. intros Hr. split; [|split; [|split]].
  - destruct (strip (display_content (ui w) ++ [10%N])) as [|c t] eqn:E.
    + rewrite start_test_no_text by exact E. exact Hr.
    + destruct (start_test_fields text (c :: t) w E ltac:(discriminate))
        as (_ & _ & _ & H & _).
      rewrite H. lia.
  - destruct (Z_lt_le_dec 0 (remaining_time (self w))) as [Hpos|Hzero].
    + rewrite update_timer_tick by exact Hpos. cbn [snd].
      change (remaining_time (self (ticked w))) with (remaining_time (self w) - 1). lia.
    + rewrite update_timer_zero by exact Hzero.
      destruct (test_ended (self w)) eqn:E.
      * rewrite end_already_ended by exact E. exact Hr.
      * rewrite end_not_ended by exact E. exact Hr.
  - destruct (test_ended (self w)) eqn:E.
    + rewrite end_already_ended by exact E. exact Hr.
    + rewrite end_not_ended by exact E. exact Hr.
  - destruct (name_loop (answers (env w))) as [o rest] eqn:Hloop.
    destruct o as [[n|]|x|].
    + rewrite (end_from_dialog_named speed acc n rest w Hloop).
      destruct (timer_update_id (self w)); cbn [snd];
        unfold table_shown, input_closed; simpl; lia.
    + unfold end_from_dialog, bind, ask_name. rewrite Hloop. exact Hr.
    + unfold end_from_dialog, bind, ask_name. rewrite Hloop. exact Hr.
    + unfold end_from_dialog, bind, ask_name. rewrite Hloop. exact Hr.
Qed.

Lemma counter_stays_in_range_witness :
  counter_in_range (snd (start_test [] loaded_world)) /\
  counter_in_range (snd (update_timer loaded_world)) /\
  counter_in_range (snd (end_ loaded_world)) /\
  counter_in_range (snd (end_from_dialog (PyInt 80) (PyInt 95) loaded_world)).
Proof.
  apply (counter_stays_in_range [] (PyInt 80) (PyInt 95) loaded_world).
  unfold counter_in_range. simpl. lia.
Defined.

(* ================================================================== *)
(** * More of [calculate_speed] *)
(* ================================================================== *)

Lemma round_result_nonneg (m e : Z) :
  0 <= m -> nonneg_float (round_result false m e) = true.
Proof.
  intros Hm. unfold round_result. destruct m; try lia; try reflexivity.
  destruct (e <=? emax - prec); reflexivity.
Qed.

Lemma round_result_positive (m e : Z) :
  0 < m -> positive_float (round_result false m e) = true.
Proof.
  intros Hm. unfold round_result. destruct m; try lia.
  destruct (e <=? emax - prec); reflexivity.
Qed.

(** A quotient of two positive finite floats has the sign of neither. *)
Lemma SFdiv_finite_form (mx my : positive) (ex ey : Z) :
  exists m2 e2,
    SFdiv prec emax (S754_finite false mx ex) (S754_finite false my ey)
    = round_result false m2 e2 /\ 0 <= m2.
Proof.
  unfold SFdiv.
  destruct (SFdiv_core_binary_spec mx my ex ey) as [l Hcore].
  rewrite Hcore. simpl xorb.
  match goal with
  | |- context [binary_round_aux _ _ false ?q ?e' l] =>
      assert (Hq : 0 <= q);
      [ apply Z.div_pos; [|lia];
        apply Z.mul_nonneg_nonneg; [lia | apply Z.pow_nonneg; lia]
      | destruct (binary_round_aux_spec false q e' l Hq) as (m2 & e2 & Heq & Hm2 & _) ]
  end.
  exists m2, e2. split; assumption.
Qed.

(** The minutes that [calculate_speed] divides by are positive. *)
Lemma elapsed_minutes_positive (d : float) :
  is_nan d = false ->
  exists em,
    truediv (max2 (PyFloat d) (PyInt 1)) (PyFloat f60) = Val (PyFloat em) /\
    positive_float em = true.
Proof.
  intros Hnan.
  destruct (elapsed_minutes_not_zero d) as (em & Hem & Hnz).
  exists em. split; [exact Hem|].
  unfold max2, gtb in Hem.
  destruct (ltb (PyFloat d) (PyInt 1)) eqn:Hlt.
  - vm_compute in Hem. inversion Hem; subst. reflexivity.
  - assert (Hdiv : truediv (PyFloat d) (PyFloat f60) = Val (PyFloat (fdiv d f60)))
      by reflexivity.
    rewrite Hdiv in Hem. inversion Hem; subst em. clear Hem Hdiv.
    destruct d as [s|s| |s m e]; try discriminate.
    + destruct s; [exfalso; vm_compute in Hlt; discriminate Hlt | reflexivity].
    + destruct s.
      * exfalso. clear Hnz. pose proof (div60_not_zero (S754_finite true m e)) as H.
        revert Hlt. unfold ltb, compare. simpl. unfold dyadic_compare.
        assert (Hneg : Zneg m * 2 ^ (e - Z.min e 0) < 1 * 2 ^ (0 - Z.min e 0)).
        { assert (0 < 2 ^ (e - Z.min e 0)) by (apply Z.pow_pos_nonneg; lia).
          assert (0 < 2 ^ (0 - Z.min e 0)) by (apply Z.pow_pos_nonneg; lia).
          nia. }
        apply Z.compare_lt_iff in Hneg. rewrite Hneg. discriminate.
      * unfold fdiv, f60 in *.
        destruct (SFdiv_finite_form m 8444249301319680 e (-47)) as (m2 & e2 & Heq & Hm2).
        rewrite Heq in *.
        apply round_result_positive.
        destruct (Z.eq_dec m2 0) as [->|]; [discriminate Hnz | lia].
Qed.

(** [float(n)] of a length is zero or a positive finite float. *)
Lemma float_of_int_length (n : Z) :
  0 <= n < 2 ^ 63 ->
  exists f, float_of_int n = Val f /\ nonneg_float f = true /\ is_finite f = true.
Proof.
  intros Hn. unfold float_of_int, binary_normalize.
  destruct n as [|p|p]; try lia.
  - eexists; repeat split; reflexivity.
  - destruct (float_of_int_small (Zpos p) Hn) as (f & Hf & _).
    unfold float_of_int, binary_normalize in Hf.
    unfold binary_round in *.
    destruct (shl_align p 0 (fexp prec emax (Zpos (digits2_pos p) + 0))) as [mz ez].
    destruct (binary_round_aux_spec false (Zpos mz) ez loc_Exact ltac:(lia))
      as (m2 & e2 & Heq & Hm2 & _).
    rewrite Heq in *.
    destruct (is_infinite (round_result false m2 e2)) eqn:Hinf; [discriminate|].
    eexists. split; [reflexivity|]. split; [apply round_result_nonneg; exact Hm2|].
    revert Hinf. unfold round_result. destruct m2; try lia; try reflexivity.
    destruct (e2 <=? emax - prec); [reflexivity | discriminate].
Qed.

(** A quotient of a float that is not negative by a positive one is not
    negative, and no NaN. *)
Lemma fdiv_nonneg (x y : float) :
  nonneg_float x = true -> is_finite x = true -> positive_float y = true ->
  nonneg_float (fdiv x y) = true.
Proof.
  destruct x as [sx|sx| |sx mx ex], y as [sy|sy| |sy my ey]; try discriminate;
    try (destruct sy; try discriminate); try (destruct sx; try discriminate);
    intros _ _ _; try reflexivity.
  unfold fdiv.
  destruct (SFdiv_finite_form mx my ex ey) as (m2 & e2 & Heq & Hm2).
  rewrite Heq. apply round_result_nonneg. exact Hm2.
Qed.

Lemma nonneg_float_geb (f : float) :
  nonneg_float f = true ->
  is_number (PyFloat f) = true /\ geb (PyFloat f) (PyInt 0) = true.
Proof.
  destruct f as [s|s| |s m e]; try discriminate.
  - intros _. split; reflexivity.
  - destruct s; [discriminate|]. intros _. split; reflexivity.
  - destruct s; [discriminate|]. intros _. split; [reflexivity|].
    unfold geb, compare. simpl. unfold dyadic_compare.
    assert (H : 0 * 2 ^ (0 - Z.min e 0) <= Zpos m * 2 ^ (e - Z.min e 0)).
    { assert (0 < 2 ^ (e - Z.min e 0)) by (apply Z.pow_pos_nonneg; lia). lia. }
    destruct (Z.compare_spec (Zpos m * 2 ^ (e - Z.min e 0)) (0 * 2 ^ (0 - Z.min e 0)));
      try reflexivity; lia.
Qed.

(** What [calculate_speed] returns for finite clock readings. *)
Lemma calculate_speed_value (typed : str) (s e : float) (w : World) :
  start_time (self w) = Some s ->
  end_time (self w) = Some e ->
  is_finite s = true ->
  is_finite e = true ->
  len typed < 2 ^ 63 ->
  exists words minutes,
    float_of_int (word_count typed) = Val words /\
    nonneg_float words = true /\ is_finite words = true /\
    positive_float minutes = true /\
    calculate_speed typed w
    = (Done (PyFloat (fdiv words minutes)), show_speed (PyFloat (fdiv words minutes)) w).
Proof.
  intros Hs He Hfs Hfe Hlen.
  destruct (elapsed_minutes_positive (fsub e s) (fsub_finite_not_nan e s Hfe Hfs))
    as (minutes & Hmin & Hpos).
  pose proof (word_count_le_len typed) as Hwc.
  destruct (float_of_int_length (word_count typed) ltac:(lia))
    as (words & Hwords & Hnn & Hfin).
  exists words, minutes. repeat split; try assumption.
  assert (Hnz : is_zero minutes = false) by (destruct minutes; try discriminate; reflexivity).
  unfold calculate_speed, bind, get. rewrite He, Hs.
  unfold elapsed. cbv [sub as_float res_bind eval]. unfold ret at 1.
  fold (fsub e s). rewrite Hmin. unfold ret at 1.
  unfold truediv. cbv [as_float res_bind]. rewrite Hwords.
  unfold float_truediv. rewrite Hnz. reflexivity.
Qed.

(** X16.  With finite readings of the clock, in either order, and a typed
    text of fewer than 2^63 characters, [calculate_speed] returns a speed
    that is no NaN and is [>= 0]. *)
Theorem calculate_speed_is_number (typed : str) (s e : float) (w : World) :
  start_time (self w) = Some s ->
  end_time (self w) = Some e ->
  is_finite s = true ->
  is_finite e = true ->
  len typed < 2 ^ 63 ->
  exists wpm,
    fst (calculate_speed typed w) = Done wpm /\
    is_number wpm = true /\
    geb wpm (PyInt 0) = true.
Proof.
  intros Hs He Hfs Hfe Hlen.
  destruct (calculate_speed_value typed s e w Hs He Hfs Hfe Hlen)
    as (words & minutes & _ & Hnn & Hfin & Hpos & Hrun).
  exists (PyFloat (fdiv words minutes)). rewrite Hrun.
  split; [reflexivity|].
  apply nonneg_float_geb, fdiv_nonneg; assumption.
Qed.

Lemma calculate_speed_is_number_witness :
  exists wpm,
    fst (calculate_speed (lit "hello world") timed_world) = Done wpm /\
    is_number wpm = true /\
    geb wpm (PyInt 0) = true.
Proof.
  apply (calculate_speed_is_number (lit "hello world") f1 f60 timed_world);
    [reflexivity | reflexivity | reflexivity | reflexivity | vm_compute; reflexivity].
Defined.

Lemma split_blank (s : str) : blank s = true -> split s = [].
Proof.
  unfold blank, split. induction s as [|c t IH]; simpl; [reflexivity|].
  destruct (isspace c); simpl; [exact IH | discriminate].
Qed.

(** X17.  With finite readings of the clock, a typed text that is empty
    or holds white space only gives the speed [0.0], whatever the time
    taken. *)
Theorem calculate_speed_no_words (typed : str) (s e : float) (w : World) :
  start_time (self w) = Some s ->
  end_time (self w) = Some e ->
  is_finite s = true ->
  is_finite e = true ->
  blank typed = true ->
  fst (calculate_speed typed w) = Done (PyFloat (S754_zero false)).
Proof.
  intros Hs He Hfs Hfe Hblank.
  destruct (elapsed_minutes_positive (fsub e s) (fsub_finite_not_nan e s Hfe Hfs))
    as (minutes & Hmin & Hpos).
  assert (Hnz : is_zero minutes = false) by (destruct minutes; try discriminate; reflexivity).
  unfold calculate_speed, bind, get. rewrite He, Hs.
  unfold elapsed. cbv [sub as_float res_bind eval]. unfold ret at 1.
  fold (fsub e s). rewrite Hmin. unfold ret at 1.
  unfold word_count. rewrite (split_blank typed Hblank).
  unfold truediv. cbv [as_float res_bind].
  change (float_of_int (Z.of_nat (List.length (@nil str)))) with (Val (S754_zero false)).
  cbv iota beta. unfold float_truediv. rewrite Hnz.
  destruct minutes as [| [|] | | [|] ? ?]; try discriminate; reflexivity.
Qed.

Lemma calculate_speed_no_words_witness :
  fst (calculate_speed (lit "  ") timed_world) = Done (PyFloat (S754_zero false)).
Proof.
  apply (calculate_speed_no_words (lit "  ") f1 f60 timed_world); reflexivity.
Defined.

(* ================================================================== *)
(** * More of [calculate_accuracy]: the range of the result *)
(* ================================================================== *)

(** Rounding, with the bound it keeps: a mantissa that stays below [K]
    once it is shifted to the exponent of the format rounds to at most
    [K]; a mantissa of 53 digits or more in the normal range rounds to one
    of exactly 53. *)
Lemma binary_round_aux_bounds (s : bool) (m e : Z) (l : location) :
  0 <= m ->
  exists m2 e2 e1,
    e1 = e + Z.max 0 (fexp prec emax (Zdigits2 m + e) - e) /\
    binary_round_aux prec emax s m e l = round_result s m2 e2 /\
    0 <= m2 /\
    e1 <= e2 /\
    e2 <= Z.max (Z.max e (-1074)) (Zdigits2 m + e - 52) /\
    (forall K, m / 2 ^ (e1 - e) < K -> m2 * 2 ^ (e2 - e1) <= K) /\
    (53 <= Zdigits2 m -> -1021 <= Zdigits2 m + e -> Zdigits2 m2 = 53).
Proof.
  intros Hm. unfold binary_round_aux.
  pose proof (shr_fexp_spec m e l Hm) as [Hm1 He1].
  destruct (shr_fexp prec emax m e l) as [mrs1 e1]. simpl fst in Hm1. simpl snd in He1.
  set (r := round_nearest_even (shr_m mrs1) (loc_of_shr_record mrs1)).
  pose proof (round_nearest_even_bounds (shr_m mrs1) (loc_of_shr_record mrs1)) as Hr.
  fold r in Hr.
  set (n1 := Z.max 0 (fexp prec emax (Zdigits2 m + e) - e)) in *.
  assert (Hn1 : 0 <= n1) by (unfold n1; lia).
  assert (Hm1nn : 0 <= shr_m mrs1).
  { rewrite Hm1. apply Z.div_pos; [lia | apply Z.pow_pos_nonneg; lia]. }
  assert (Hrnn : 0 <= r) by lia.
  pose proof (shr_fexp_spec r e1 loc_Exact Hrnn) as [Hm2 He2].
  destruct (shr_fexp prec emax r e1 loc_Exact) as [mrs2 e2]. simpl fst in Hm2. simpl snd in He2.
  set (n2 := Z.max 0 (fexp prec emax (Zdigits2 r + e1) - e1)) in *.
  assert (Hn2 : 0 <= n2) by (unfold n2; lia).
  assert (Hp2 : 0 < 2 ^ n2) by (apply Z.pow_pos_nonneg; lia).
  assert (Hm2nn : 0 <= shr_m mrs2).
  { rewrite Hm2. apply Z.div_pos; lia. }
  pose proof (Zdigits2_shift m n1 Hm Hn1) as Hd1. rewrite <- Hm1 in Hd1.
  pose proof (Zdigits2_shift r n2 Hrnn Hn2) as Hd2. rewrite <- Hm2 in Hd2.
  pose proof (Zdigits2_mono (shr_m mrs1) r Hm1nn (proj1 Hr)) as Hdr1.
  assert (Hdr2 : Zdigits2 r <= Zdigits2 (shr_m mrs1) + 1).
  { etransitivity; [apply Zdigits2_mono; [lia | apply (proj2 Hr)] |].
    apply Zdigits2_succ; lia. }
  pose proof (Zdigits2_nonneg m) as Hdm.
  exists (shr_m mrs2), e2, e1.
  split; [exact He1|]. split.
  { unfold round_result. destruct (shr_m mrs2); reflexivity. }
  split; [exact Hm2nn|]. split; [lia|]. split.
  { unfold n1, n2 in *. rewrite !fexp_eq in *. lia. }
  split.
  - intros K HK.
    replace (e1 - e) with n1 in HK by lia. rewrite <- Hm1 in HK.
    replace (e2 - e1) with n2 by lia.
    assert (shr_m mrs2 * 2 ^ n2 <= r).
    { rewrite Hm2, Z.mul_comm. apply Z.mul_div_le. exact Hp2. }
    lia.
  - intros H53 Hnorm. unfold n1, n2 in *. rewrite !fexp_eq in *. lia.
Qed.

Lemma round_result_finite (m e : Z) :
  0 < m -> e <= 971 ->
  round_result false m e = S754_finite false (Z.to_pos m) e.
Proof.
  intros Hm He. unfold round_result. destruct m as [|p|p]; try lia.
  change (emax - prec) with 971.
  destruct (Z.leb_spec e 971); [reflexivity | lia].
Qed.

Lemma digits53_bounds (m : Z) :
  0 <= m -> Zdigits2 m = 53 -> 2 ^ 52 <= m < 2 ^ 53.
Proof.
  intros Hm Hd. split.
  - assert (0 < m) by (destruct m; simpl in Hd; lia).
    pose proof (Zdigits2_lower m H) as Hl. rewrite Hd in Hl. exact Hl.
  - pose proof (Zdigits2_upper m Hm) as Hu. rewrite Hd in Hu. exact Hu.
Qed.

(** The ratio of two lengths, the smaller over the greater: a float of 53
    digits that is below 1, or 1.0 itself. *)
Lemma ratio_at_most_one (pa pb : positive) :
  Zpos pa < Zpos pb -> Zpos pb < 2 ^ 63 ->
  exists m2 e2,
    SFdiv prec emax (S754_finite false pa 0) (S754_finite false pb 0)
    = S754_finite false m2 e2 /\
    2 ^ 52 <= Zpos m2 < 2 ^ 53 /\
    -115 <= e2 /\
    (e2 <= -53 \/ (e2 = -52 /\ Zpos m2 = 2 ^ 52)).
Proof.
  intros Hab Hb. unfold SFdiv.
  destruct (SFdiv_core_binary_spec pa pb 0 0) as [l Hcore].
  rewrite Hcore. clear Hcore. simpl xorb.
  assert (Hda : 1 <= Zdigits2 (Zpos pa)) by (pose proof (Zdigits2_pos (Zpos pa)); lia).
  assert (Hdab : Zdigits2 (Zpos pa) <= Zdigits2 (Zpos pb)) by (apply Zdigits2_mono; lia).
  assert (Hdb : Zdigits2 (Zpos pb) <= 63) by (apply Zdigits2_le_iff; lia).
  set (e' := Z.min (fexp prec emax (Zdigits2 (Zpos pa) + 0 - (Zdigits2 (Zpos pb) + 0))) (0 - 0)).
  assert (He' : e' = Zdigits2 (Zpos pa) - Zdigits2 (Zpos pb) - 53).
  { unfold e'. rewrite fexp_eq. lia. }
  replace (0 - 0 - e') with (- e') by lia.
  set (x := Zpos pa * 2 ^ (- e')).
  assert (Hps : 0 < 2 ^ (- e')) by (apply Z.pow_pos_nonneg; lia).
  assert (Hx : 0 < x) by (unfold x; lia).
  assert (Hdx : Zdigits2 x = Zdigits2 (Zpos pa) + - e')
    by (unfold x; apply Zdigits2_mul_pow2; lia).
  set (q := x / Zpos pb).
  pose proof (Zdigits2_div_lower x (Zpos pb) Hx ltac:(lia)) as Hdq1. fold q in Hdq1.
  pose proof (Zdigits2_div_upper x (Zpos pb) ltac:(lia) ltac:(lia)) as Hdq2. fold q in Hdq2.
  assert (Hq0 : 0 <= q) by (apply Z.div_pos; lia).
  assert (Hqlt : q < 2 ^ (- e')).
  { unfold q. apply Z.div_lt_upper_bound; [lia|]. unfold x. nia. }
  destruct (binary_round_aux_bounds false q e' l Hq0)
    as (m2 & e2 & e1 & He1 & Heq & Hm2 & He12 & He2 & Hbound & Hcanon).
  rewrite fexp_eq in He1.
  assert (Hn1 : 0 <= e1 - e' <= 1) by lia.
  assert (He1neg : e1 <= -52) by lia.
  specialize (Hcanon ltac:(lia) ltac:(lia)).
  pose proof (digits53_bounds m2 Hm2 Hcanon) as [Hlo Hhi].
  specialize (Hbound (2 ^ (- e1))).
  assert (Hle : m2 * 2 ^ (e2 - e1) <= 2 ^ (- e1)).
  { apply Hbound. apply Z.div_lt_upper_bound; [apply Z.pow_pos_nonneg; lia|].
    rewrite <- Z.pow_add_r by lia. replace (e1 - e' + - e1) with (- e') by lia.
    exact Hqlt. }
  assert (Hp : 0 < 2 ^ (e2 - e1)) by (apply Z.pow_pos_nonneg; lia).
  assert (He2le : e2 <= -52).
  { destruct (Z_le_gt_dec e2 (-52)) as [|Hgt]; [assumption|exfalso].
    assert (2 ^ (1 - e1) <= 2 ^ 52 * 2 ^ (e2 - e1)).
    { rewrite <- Z.pow_add_r by lia. apply Z.pow_le_mono_r; lia. }
    assert (2 ^ (- e1) < 2 ^ (1 - e1)) by (apply Z.pow_lt_mono_r; lia).
    nia. }
  rewrite Heq. rewrite round_result_finite by lia.
  exists (Z.to_pos m2), e2. rewrite Z2Pos.id by lia.
  split; [reflexivity|]. split; [lia|]. split; [lia|].
  destruct (Z.eq_dec e2 (-52)) as [E|]; [right | left; lia].
  split; [exact E|].
  assert (Hsplit : 2 ^ (- e1) = 2 ^ 52 * 2 ^ (e2 - e1)).
  { rewrite <- Z.pow_add_r by lia. f_equal. lia. }
  nia.
Qed.

(** A float below 1 times [100.0] rounds to a float that is at most 100. *)
Lemma fmul_100_at_most (m2 : positive) (e2 : Z) :
  2 ^ 52 <= Zpos m2 < 2 ^ 53 -> -115 <= e2 -> e2 <= -53 ->
  exists m3 e3,
    fmul (S754_finite false m2 e2) f100 = S754_finite false m3 e3 /\
    geb (PyInt 100) (PyFloat (S754_finite false m3 e3)) = true.
Proof.
  intros Hm2 Hlo Hhi. unfold fmul, f100, SFmul. simpl xorb.
  rewrite Pos2Z.inj_mul.
  set (m := Zpos m2 * Zpos 7036874417766400).
  set (e := e2 + -46).
  change (2 ^ 52) with 4503599627370496 in Hm2.
  change (2 ^ 53) with 9007199254740992 in Hm2.
  assert (Hm0 : 0 < m) by (unfold m; lia).
  assert (Hd1 : 105 <= Zdigits2 m).
  { destruct (Z_le_gt_dec (Zdigits2 m) 104) as [Hle|]; [exfalso | lia].
    apply Zdigits2_le_iff in Hle; unfold m in *; lia. }
  assert (Hd2 : Zdigits2 m <= 106).
  { apply Zdigits2_le_iff; unfold m; lia. }
  destruct (binary_round_aux_bounds false m e loc_Exact ltac:(lia))
    as (m3 & e3 & e1 & He1 & Heq & Hm3 & He13 & He3 & Hbound & Hcanon).
  rewrite fexp_eq in He1.
  assert (He1' : e1 = e + Zdigits2 m - 53) by (unfold e in *; lia).
  assert (He1neg : e1 <= 0) by (unfold e in *; lia).
  specialize (Hcanon ltac:(lia) ltac:(unfold e; lia)).
  pose proof (digits53_bounds m3 Hm3 Hcanon) as [Hl3 Hh3].
  assert (Hle : m3 * 2 ^ (e3 - e1) <= 100 * 2 ^ (- e1)).
  { apply Hbound. apply Z.div_lt_upper_bound; [apply Z.pow_pos_nonneg; lia|].
    rewrite Z.mul_assoc, (Z.mul_comm _ 100), <- Z.mul_assoc.
    rewrite <- Z.pow_add_r by lia.
    replace (e1 - e + - e1) with (46 + (- e2 - 53) + 53) by (unfold e; lia).
    rewrite !Z.pow_add_r by lia.
    assert (0 < 2 ^ (- e2 - 53)) by (apply Z.pow_pos_nonneg; lia).
    change (2 ^ 46) with 70368744177664. change (2 ^ 53) with 9007199254740992.
    unfold m. nia. }
  rewrite Heq.
  assert (Hpos3 : 0 < m3) by (change (2 ^ 52) with 4503599627370496 in Hl3; lia).
  rewrite round_result_finite by (unfold e in *; lia).
  exists (Z.to_pos m3), e3. split; [reflexivity|].
  unfold geb, compare. simpl value. unfold xval_compare.
  rewrite (dyadic_compare_align 100 0 (Zpos (Z.to_pos m3)) e3 e1) by lia.
  rewrite Z2Pos.id by lia. replace (0 - e1) with (- e1) by lia.
  destruct (Z.compare_spec (100 * 2 ^ (- e1)) (m3 * 2 ^ (e3 - e1)));
    try reflexivity; lia.
Qed.

Lemma accuracy_value_range (m : Z) (original : str) :
  original <> [] -> 0 <= m <= len original -> len original < 2 ^ 63 ->
  is_number (accuracy_value m original) = true /\
  geb (accuracy_value m original) (PyInt 0) = true /\
  geb (PyInt 100) (accuracy_value m original) = true.
Proof.
  intros Hne Hm Hlen. unfold accuracy_value.
  assert (Hl : 0 < len original).
  { destruct original; [congruence|]. unfold len. simpl List.length. lia. }
  destruct (len original) as [|pb|pb] eqn:Eb; try lia.
  destruct m as [|pa|pa]; try lia.
  - repeat split.
  - simpl exact_int.
    destruct (Z.eq_dec (Zpos pa) (Zpos pb)) as [E|Hneq].
    + injection E as ->. rewrite SFdiv_same. repeat split.
    + destruct (ratio_at_most_one pa pb ltac:(lia) Hlen)
        as (m2 & e2 & Heq & Hm2 & Hlo & Hcase).
      rewrite Heq. destruct Hcase as [Hhi|[-> Hone]].
      * destruct (fmul_100_at_most m2 e2 Hm2 Hlo Hhi) as (m3 & e3 & Hmul & Hge).
        rewrite Hmul. split; [reflexivity|]. split; [|exact Hge].
        apply (nonneg_float_geb (S754_finite false m3 e3)). reflexivity.
      * change (2 ^ 52) with (Zpos 4503599627370496) in Hone.
        injection Hone as ->. repeat split.
Qed.

(** X18.  For every typed text and every original text of fewer than
    2^63 characters, [calculate_accuracy] returns a number that is no NaN
    and lies between 0 and 100, both included: neither of the two
    roundings, of the division and of the product by 100, carries the
    result above 100. *)
Theorem calculate_accuracy_in_range (typed original : str) (w : World) :
  len original < 2 ^ 63 ->
  exists a,
    fst (calculate_accuracy typed original w) = Done a /\
    is_number a = true /\
    geb a (PyInt 0) = true /\
    geb (PyInt 100) a = true.
Proof.
  intros Hlen. destruct original as [|c o].
  - exists (PyInt 0). repeat split.
  - exists (accuracy_value (matches typed (c :: o)) (c :: o)).
    rewrite calculate_accuracy_nonempty by discriminate.
    split; [reflexivity|].
    apply accuracy_value_range; [discriminate | apply matches_bounds | exact Hlen].
Qed.

Lemma calculate_accuracy_in_range_witness :
  exists a,
    fst (calculate_accuracy (lit "hello world") (lit "hello there") idle_world) = Done a /\
    is_number a = true /\
    geb a (PyInt 0) = true /\
    geb (PyInt 100) a = true.
Proof.
  apply (calculate_accuracy_in_range (lit "hello world") (lit "hello there") idle_world).
  vm_compute. reflexivity.
Defined.

(* ================================================================== *)
(** * The measured speed in the table *)
(* ================================================================== *)

(** X19.  [calculate_speed] and the part of [end] from the name dialog on,
    one after the other.  With finite readings of the clock and a typed
    text of fewer than 2^63 characters, recording the speed that
    [calculate_speed] returns, with any accuracy and whatever the user
    answers, leaves a table that was sorted descending and free of NaN
    sorted descending and free of NaN. *)
Theorem measured_speed_keeps_table_sorted
    (typed : str) (s e : float) (acc : num) (w : World) :
  start_time (self w) = Some s ->
  end_time (self w) = Some e ->
  is_finite s = true ->
  is_finite e = true ->
  len typed < 2 ^ 63 ->
  sorted_desc (high_scores (manager w)) ->
  Forall has_number (high_scores (manager w)) ->
  exists wpm w1,
    calculate_speed typed w = (Done wpm, w1) /\
    sorted_desc (high_scores (manager (snd (end_from_dialog wpm acc w1)))) /\
    Forall has_number (high_scores (manager (snd (end_from_dialog wpm acc w1)))).
Proof.
  intros Hs He Hfs Hfe Hlen Hsorted Hnum.
  destruct (calculate_speed_value typed s e w Hs He Hfs Hfe Hlen)
    as (words & minutes & _ & Hnn & Hfin & Hpos & Hrun).
  set (wpm := PyFloat (fdiv words minutes)) in *.
  assert (Hwpm : is_number wpm = true)
    by (apply nonneg_float_geb, fdiv_nonneg; assumption).
  exists wpm, (show_speed wpm w). split; [exact Hrun|].
  destruct (end_from_dialog_table wpm acc (show_speed wpm w)) as [Hsame|(n & _ & Hadd)].
  - rewrite Hsame. split; assumption.
  - rewrite Hadd. change (manager (show_speed wpm w)) with (manager w).
    split.
    + apply top_ten_sorted; [exact Hnum | exact Hwpm].
    + rewrite Forall_forall. intros x Hx. apply top_ten_In in Hx.
      destruct Hx as [Hx| ->]; [|exact Hwpm].
      rewrite Forall_forall in Hnum. apply Hnum. exact Hx.
Qed.

Lemma measured_speed_keeps_table_sorted_witness :
  let wpm := PyFloat (S754_finite false 4579931824444572 (-51)) in
  let w1 := show_speed wpm slow_world in
  let table := high_scores (manager (snd (end_from_dialog wpm (PyInt 95) w1))) in
  List.map score (high_scores (manager slow_world)) = [PyInt 3; PyInt 1] /\
  calculate_speed (lit "hello world") slow_world = (Done wpm, w1) /\
  List.map score table = [PyInt 3; wpm; PyInt 1] /\
  sorted_desc table /\
  Forall has_number table.
Proof.
  intros wpm w1 table.
  assert (Hrun : calculate_speed (lit "hello world") slow_world = (Done wpm, w1))
    by (vm_compute; reflexivity).
  destruct (measured_speed_keeps_table_sorted (lit "hello world") f1 f60 (PyInt 95) slow_world)
    as (wpm' & w1' & Hcalc & Hsorted & Hnumbers);
    [reflexivity | reflexivity | reflexivity | reflexivity | vm_compute; reflexivity
     | unfold sorted_desc; repeat constructor | repeat constructor |].
  rewrite Hrun in Hcalc. injection Hcalc as <- <-.
  split; [reflexivity|]. split; [exact Hrun|]. split; [reflexivity|].
  split; [exact Hsorted | exact Hnumbers].
Defined.